(** * BrandSaaS: the name-candidate generation and verification pipeline

    A shallow embedding of [src/App.tsx]: the domain availability estimator,
    the multi-extension prober, the name sanitizer, the generation
    orchestrator with its single fallback round, the history merge, the
    lifecycle operations on the application state (favorite, archive,
    restore, rate, recheck), the filtering of the displayed list, the
    registrar hand-off and the loading of the persisted state.

    JavaScript strings are sequences of UTF-16 code units.  They are modelled
    by [string], whose characters stand for the code units U+0000..U+00FF;
    [length], [toLowerCase], [trim] and the regular-expression classes below
    follow ECMAScript on that range. *)

From Stdlib Require Import ZArith NArith Bool Ascii String List Lia.
From stdpp Require Import gmap strings list pretty.

Set Warnings "-register-all".
Local Open Scope string_scope.

(* ===================================================================== *)
(** * Part I: the program                                                 *)
(* ===================================================================== *)

(** ** JavaScript string built-ins *)

Module Js.

Definition code (c : ascii) : N := N_of_ascii c.

Definition between (lo hi : N) (c : ascii) : bool :=
  ((lo <=? code c) && (code c <=? hi))%N.

(** [a-z], [A-Z], [0-9] *)
Definition isLower (c : ascii) : bool := between 97 122 c.
Definition isUpper (c : ascii) : bool := between 65 90 c.
Definition isDigit (c : ascii) : bool := between 48 57 c.
Definition isLetter (c : ascii) : bool := isLower c || isUpper c.

(** White space and line terminators, the class of [\s] and of [trim]:
    TAB, LF, VT, FF, CR, SP and NBSP. *)
Definition isSpace (c : ascii) : bool :=
  between 9 13 c || (code c =? 32)%N || (code c =? 160)%N.

(** [String.prototype.toLowerCase] on one code unit: A-Z, and the Latin-1
    capitals U+00C0..U+00DE without the multiplication sign U+00D7. *)
Definition lowerChar (c : ascii) : ascii :=
  if isUpper c || (between 192 222 c && negb (code c =? 215)%N)
  then ascii_of_N (code c + 32)
  else c.

(** Case folding of a regular expression with the [i] flag and no [u]
    flag, restricted to what an ASCII pattern can tell apart: only A-Z
    and a-z are identified. *)
Definition foldChar (c : ascii) : ascii :=
  if isUpper c then ascii_of_N (code c + 32) else c.

Fixpoint mapChars (f : ascii -> ascii) (s : string) : string :=
  match s with
  | EmptyString => EmptyString
  | String c s' => String (f c) (mapChars f s')
  end.

Fixpoint filterChars (p : ascii -> bool) (s : string) : string :=
  match s with
  | EmptyString => EmptyString
  | String c s' => if p c then String c (filterChars p s') else filterChars p s'
  end.

Definition toLowerCase (s : string) : string := mapChars lowerChar s.

(** Removes the longest prefix of characters satisfying [p]. *)
Fixpoint dropLeading (p : ascii -> bool) (s : string) : string :=
  match s with
  | EmptyString => EmptyString
  | String c s' => if p c then dropLeading p s' else s
  end.

(** Removes the longest suffix of characters satisfying [p]. *)
Fixpoint dropTrailing (p : ascii -> bool) (s : string) : string :=
  match s with
  | EmptyString => EmptyString
  | String c s' =>
      match dropTrailing p s' with
      | EmptyString => if p c then EmptyString else String c EmptyString
      | r => String c r
      end
  end.

(** [s.trim()] *)
Definition trim (s : string) : string := dropTrailing isSpace (dropLeading isSpace s).

(** [s.split(sep)] for a one-character separator: never the empty array. *)
Fixpoint split (sep : ascii) (s : string) : list string :=
  match s with
  | EmptyString => [EmptyString]
  | String c s' =>
      if Ascii.eqb c sep then EmptyString :: split sep s'
      else match split sep s' with
           | piece :: rest => String c piece :: rest
           | [] => [String c EmptyString]
           end
  end.

(** [arr[0]] on an array of strings; [None] is [undefined]. *)
Definition first (l : list string) : option string := head l.

(** [arr.pop()]: the last element; [None] is [undefined]. *)
Definition pop (l : list string) : option string := last l.

(** [arr.includes(x)] on an array of strings. *)
Definition includes (l : list string) (x : string) : bool :=
  List.existsb (String.eqb x) l.

(** [x || ''] for [x] a string or [undefined]. *)
Definition orEmpty (x : option string) : string :=
  match x with
  | Some s => if String.eqb s "" then "" else s
  | None => ""
  end.

(** [/^(w1|w2|...)$/i.test(s)] for lower-case ASCII words. *)
Definition testWordsIgnoreCase (words : list string) (s : string) : bool :=
  List.existsb (String.eqb (mapChars foldChar s)) words.

Definition LF : ascii := ascii_of_N 10.

Fixpoint forallChars (p : ascii -> bool) (s : string) : bool :=
  match s with
  | EmptyString => true
  | String c s' => p c && forallChars p s'
  end.

(** Every character of [s] is fixed by [f]. *)
Fixpoint allFixed (f : ascii -> ascii) (s : string) : Prop :=
  match s with
  | EmptyString => True
  | String c s' => f c = c /\ allFixed f s'
  end.

End Js.

(** ** Domain availability estimator ([checkDomainAvailability]) *)

Inductive status := available | taken | unknown.

Definition definitelyTaken : list string :=
  [ "google.com"; "facebook.com"; "amazon.com"; "microsoft.com"; "apple.com";
    "netflix.com"; "twitter.com"; "instagram.com"; "linkedin.com"; "youtube.com";
    "github.com"; "stackoverflow.com"; "reddit.com"; "wikipedia.org"; "wordpress.com";
    "shopify.com"; "stripe.com"; "slack.com"; "zoom.com"; "dropbox.com";
    "airbnb.com"; "uber.com"; "lyft.com"; "spotify.com"; "discord.com";
    "twitch.com"; "tiktok.com"; "snapchat.com"; "pinterest.com"; "whatsapp.com" ].

Definition commonWords : list string :=
  [ "the"; "and"; "for"; "you"; "me"; "my"; "we"; "us"; "it"; "is"; "in"; "on";
    "at"; "to"; "of"; "a"; "an"; "com"; "net"; "org" ].

Definition genericWords : list string :=
  [ "cash"; "flow"; "hq"; "pro"; "app"; "web"; "tech"; "data"; "cloud"; "team";
    "work"; "home"; "shop"; "buy"; "get"; "go"; "my"; "me"; "us"; "we" ].

Definition newerExtensions : list string := [ "io"; "co"; "app"; "dev"; "tech"; "ai"; "me" ].

Definition conservativeExtensions : list string := [ "net"; "org" ].

(** The name part is what precedes the first dot, the extension what
    follows the last one (the whole string when there is no dot). *)
Definition checkDomainAvailability (domain : string) : status :=
  let domainName := Js.toLowerCase domain in
  let domainWithoutExt := default "" (Js.first (Js.split "." domainName)) in
  if Js.includes definitelyTaken domainName then taken
  else if (String.length domainWithoutExt <=? 4)%nat then taken
  else if Js.includes commonWords domainWithoutExt then taken
  else
    let extension := Js.pop (Js.split "." domainName) in
    if bool_decide (extension = Some "com") then
      if (String.length domainWithoutExt <=? 6)%nat
         || Js.testWordsIgnoreCase genericWords domainWithoutExt
      then taken
      else available
    else if Js.includes newerExtensions (Js.orEmpty extension) then available
    else if Js.includes conservativeExtensions (Js.orEmpty extension) then
      if (String.length domainWithoutExt <=? 5)%nat then taken else available
    else available.

(** ** Multi-extension prober ([checkMultipleDomains]) *)

Definition extensions : list string :=
  [ ".com"; ".net"; ".org"; ".io"; ".co"; ".app"; ".dev"; ".tech"; ".ai"; ".me" ].

(** [name.toLowerCase().replace(/[^a-z0-9]/g, '')] *)
Definition domainLabel (name : string) : string :=
  Js.filterChars (fun c => Js.isLower c || Js.isDigit c) (Js.toLowerCase name).

(** The estimator never throws, so the [catch] that would record [unknown]
    for an extension is never entered; the pacing delay has no effect on
    the result. *)
Definition checkMultipleDomains (name : string) : gmap string status :=
  let cleanName := domainLabel name in
  foldl (fun results ext => <[ ext := checkDomainAvailability (cleanName +:+ ext) ]> results)
        ∅ extensions.

(** ** Name sanitizer (the cleaning chain and the filters of [generateName]) *)

(** [/^[^a-zA-Z]*/]: the characters removed at the front. *)
Definition notLetter (c : ascii) : bool := negb (Js.isLetter c).

(** [/[^a-zA-Z0-9\s-]*$/]: the characters removed at the back. *)
Definition notNameTail (c : ascii) : bool :=
  negb (Js.isLetter c || Js.isDigit c || Js.isSpace c || Ascii.eqb c "-").

Definition cleanLine (nameText : string) : string :=
  let stripped := Js.trim (Js.dropTrailing notNameTail (Js.dropLeading notLetter nameText)) in
  let firstLine := default "" (Js.first (Js.split Js.LF stripped)) in
  let beforePeriod := default "" (Js.first (Js.split "." firstLine)) in
  Js.trim beforePeriod.

Definition unwantedWords : list string :=
  [ "here"; "suggest"; "example"; "name"; "names"; "business"; "company"; "saas"; "startup" ].

(** The filter of the primary loop: [true] means [continue]. *)
Definition rejectedPrimary (cleanName : string) : bool :=
  (30 <? String.length cleanName)%nat
  || (String.length cleanName <? 2)%nat
  || List.existsb (fun word => String.eqb (Js.toLowerCase cleanName) word) unwantedWords.

(** The filter of the fallback loop. *)
Definition rejectedFallback (cleanName : string) : bool :=
  (30 <? String.length cleanName)%nat || (String.length cleanName <? 2)%nat.

(** One line of the primary response to a candidate name, if any. *)
Definition sanitize (nameText : string) : option string :=
  let cleanName := cleanLine nameText in
  if rejectedPrimary cleanName then None else Some cleanName.

Definition sanitizeFallback (nameText : string) : option string :=
  let cleanName := cleanLine nameText in
  if rejectedFallback cleanName then None else Some cleanName.

(** [response.split('\n').filter(line => line.trim().length > 0).slice(0, 5)] *)
Definition nameLines (response : string) : list string :=
  take 5 (List.filter (fun line => (0 <? String.length (Js.trim line))%nat)
                      (Js.split Js.LF response)).

(** ** Data model *)

Record GeneratedName := {
  id : string;
  name : string;
  category : string;
  timestamp : Z;
  isFavorite : bool;
  rating : Z;
  ratingComment : string;
  domains : gmap string status
}.

(** [archivedNames] is declared [GeneratedName[]], but [archiveName] appends
    the result of [find] under a type assertion, which can be [undefined]:
    [None] stands for that entry. *)
Record AppState := {
  generatedNames : list GeneratedName;
  favorites : list string;
  archivedNames : list (option GeneratedName);
  darkMode : bool
}.

Definition emptyState : AppState :=
  {| generatedNames := []; favorites := []; archivedNames := []; darkMode := false |}.

(** ** Effects: exceptions, and the world outside the component *)

Inductive error := SyntaxError | TypeError | NetworkError.

Inductive outcome (A : Type) :=
| Returns (a : A)
| Throws (e : error).
Arguments Returns {A} a.
Arguments Throws {A} e.

(** What one [fetch] of the generation service ends in: a rejected promise,
    or a payload whose first generation carries [text] ([None] when
    [data.generations?.[0]?.text] is [undefined]). *)
Inductive reply :=
| Rejected
| Payload (text : option string).

(** The collaborators of one generation call, by the number of candidates
    built so far for the clock and the random source. *)
Record Env := {
  cohere : string -> reply;
  dateNow : nat -> string;
  mathRandom : nat -> string;
  newDate : nat -> Z
}.

(** What a run has done so far: the prompts sent to the service, in order,
    and the number of candidates built. *)
Record World := {
  requests : list string;
  built : nat
}.

Definition startWorld : World := {| requests := []; built := 0 |}.

Definition M (A : Type) : Type := World -> outcome A * World.

Definition ret {A} (a : A) : M A := fun w => (Returns a, w).

Definition bind {A B} (m : M A) (k : A -> M B) : M B :=
  fun w => match m w with
           | (Returns a, w') => k a w'
           | (Throws e, w') => (Throws e, w')
           end.

Definition tryCatch {A} (body : M A) (handler : error -> M A) : M A :=
  fun w => match body w with
           | (Returns a, w') => (Returns a, w')
           | (Throws e, w') => handler e w'
           end.

Notation "x <- m ;; k" := (bind m (fun x => k))
  (at level 100, m at next level, right associativity, only parsing).

(** [generateNameWithCohere]: one request, logged; the text is trimmed and
    an absent or empty text becomes the empty string. *)
Definition generateNameWithCohere (env : Env) (prompt : string) : M string :=
  fun w =>
    let w' := {| requests := requests w ++ [prompt]; built := built w |} in
    match cohere env prompt with
    | Rejected => (Throws NetworkError, w')
    | Payload text => (Returns (Js.orEmpty (Js.trim <$> text)), w')
    end.

(** The index of the next candidate, for the clock and the random source. *)
Definition nextIndex : M nat :=
  fun w => (Returns (built w), {| requests := requests w; built := S (built w) |}).

(** ** Generation orchestrator ([generateName]) *)

(** The [id] and [name] of each entry of [categories]. *)
Definition categories : list (string * string) :=
  [ ("tech", "Technology"); ("finance", "Finance"); ("health", "Healthcare");
    ("education", "Education"); ("marketing", "Marketing"); ("creative", "Creative");
    ("productivity", "Productivity"); ("social", "Social") ].

Inductive NameLength := short | medium | long.
Inductive NameStyle := modern | classic | invented | compound.

Definition lengthText (l : NameLength) : string :=
  match l with short => "short" | medium => "medium" | long => "long" end.

Definition styleText (s : NameStyle) : string :=
  match s with
  | modern => "modern" | classic => "classic" | invented => "invented" | compound => "compound"
  end.

(** The component state that [generateName] reads. *)
Record Controls := {
  selectedCategory : string;
  nameStyle : NameStyle;
  nameLength : NameLength;
  keyword : string
}.

Inductive toast :=
| ToastSuccess (message : string)
| ToastError (message : string).

(** [categories.find(cat => cat.id === selectedCategory)?.name || 'Technology'] *)
Definition categoryNameOf (selected : string) : string :=
  match List.find (fun cat => String.eqb (fst cat) selected) categories with
  | Some cat => if String.eqb (snd cat) "" then "Technology" else snd cat
  | None => "Technology"
  end.

Definition doubleQuote : string := String (ascii_of_N 34) EmptyString.

Definition primaryPrompt (ui : Controls) : string :=
  let categoryName := categoryNameOf (selectedCategory ui) in
  let prompt :=
    "Generate 5 creative business names for a " +:+ Js.toLowerCase categoryName
      +:+ " SaaS company. " in
  let prompt :=
    prompt +:+ "Style: " +:+ styleText (nameStyle ui) +:+ ". Length: "
      +:+ lengthText (nameLength ui) +:+ ". " in
  let prompt :=
    if String.eqb (Js.trim (keyword ui)) "" then prompt
    else prompt +:+ "One name should include " +:+ doubleQuote +:+ Js.trim (keyword ui)
           +:+ doubleQuote +:+ ". " in
  let prompt := prompt +:+ "Examples: CloudFlow, DataSync, TeamHub, WorkSpace, LearnPro. " in
  prompt +:+ "Return exactly 5 names, one per line, no other text.".

Definition fallbackPromptFor (categoryName : string) : string :=
  "Give me 5 short business names for " +:+ Js.toLowerCase categoryName
    +:+ ". Examples: CloudFlow, DataSync, TeamHub. One per line.".

(** The body shared by the two [for (const nameText of ...)] loops: they
    differ in the filter and in the suffix of the minted id. *)
Fixpoint buildCandidates (env : Env) (rejected : string -> bool) (idSuffix : string)
    (categoryName : string) (names : list string) (generatedNames : list GeneratedName)
    : M (list GeneratedName) :=
  match names with
  | [] => ret generatedNames
  | nameText :: rest =>
      let cleanName := cleanLine nameText in
      if rejected cleanName
      then buildCandidates env rejected idSuffix categoryName rest generatedNames
      else
        let probed := checkMultipleDomains cleanName in
        k <- nextIndex ;;
        let generatedName :=
          {| id := dateNow env k +:+ mathRandom env k +:+ idSuffix;
             name := cleanName;
             category := categoryName;
             timestamp := newDate env k;
             isFavorite := false;
             rating := 0;
             ratingComment := "";
             domains := probed |} in
        buildCandidates env rejected idSuffix categoryName rest
                        (generatedNames ++ [generatedName])
  end.

Definition primaryLoop (env : Env) := buildCandidates env rejectedPrimary "".
Definition fallbackLoop (env : Env) := buildCandidates env rejectedFallback "fallback".

(** History merger: the updater passed to [setAppState] on success. *)
Definition mergeHistory (generated : list GeneratedName) (prev : AppState) : AppState :=
  {| generatedNames := take 20 (generated ++ generatedNames prev);
     favorites := favorites prev;
     archivedNames := archivedNames prev;
     darkMode := darkMode prev |}.

Definition generatedToast (n : nat) : toast :=
  ToastSuccess ("Generated " +:+ pretty n +:+ " names!").

Definition failedToast : toast :=
  ToastError "Failed to generate names. Please try again.".

(** The [try] block of [generateName]. *)
Definition generateNameBody (env : Env) (ui : Controls) (prev : AppState)
    : M (AppState * toast) :=
  let categoryName := categoryNameOf (selectedCategory ui) in
  response <- generateNameWithCohere env (primaryPrompt ui) ;;
  generatedNames <- primaryLoop env categoryName (nameLines response) [] ;;
  generatedNames <-
    (if (length generatedNames <? 3)%nat then
       fallbackResponse <- generateNameWithCohere env (fallbackPromptFor categoryName) ;;
       fallbackLoop env categoryName (nameLines fallbackResponse) generatedNames
     else ret generatedNames) ;;
  ret (mergeHistory generatedNames prev, generatedToast (length generatedNames)).

(** [generateName]: the new application state and the notification shown. *)
Definition generateName (env : Env) (ui : Controls) (prev : AppState)
    : M (AppState * toast) :=
  tryCatch (generateNameBody env ui prev) (fun _ => ret (prev, failedToast)).

(** ** Lifecycle operations *)

Definition setFavorite (flag : bool) (item : GeneratedName) : GeneratedName :=
  {| id := id item; name := name item; category := category item;
     timestamp := timestamp item; isFavorite := flag; rating := rating item;
     ratingComment := ratingComment item; domains := domains item |}.

Definition toggleFavorite (nameId : string) (prev : AppState) : AppState :=
  let updatedNames :=
    List.map (fun item => if String.eqb (id item) nameId
                          then setFavorite (negb (isFavorite item)) item
                          else item)
             (generatedNames prev) in
  let updatedFavorites := List.map id (List.filter isFavorite updatedNames) in
  {| generatedNames := updatedNames;
     favorites := updatedFavorites;
     archivedNames := archivedNames prev;
     darkMode := darkMode prev |}.

Definition archiveName (nameId : string) (prev : AppState) : AppState :=
  {| generatedNames :=
       List.filter (fun item => negb (String.eqb (id item) nameId)) (generatedNames prev);
     favorites := favorites prev;
     archivedNames :=
       archivedNames prev
         ++ [List.find (fun n => String.eqb (id n) nameId) (generatedNames prev)];
     darkMode := darkMode prev |}.

(** [archived.find(name => name.id === nameId)]: reading [id] of an
    [undefined] entry throws. *)
Fixpoint findArchived (nameId : string) (archived : list (option GeneratedName))
    : outcome (option GeneratedName) :=
  match archived with
  | [] => Returns None
  | None :: _ => Throws TypeError
  | Some item :: rest =>
      if String.eqb (id item) nameId then Returns (Some item) else findArchived nameId rest
  end.

(** [archived.filter(name => name.id !== nameId)] *)
Fixpoint withoutArchived (nameId : string) (archived : list (option GeneratedName))
    : outcome (list (option GeneratedName)) :=
  match archived with
  | [] => Returns []
  | None :: _ => Throws TypeError
  | Some item :: rest =>
      match withoutArchived nameId rest with
      | Returns kept =>
          Returns (if String.eqb (id item) nameId then kept else Some item :: kept)
      | Throws e => Throws e
      end
  end.

Definition restoreName (nameId : string) (appState : AppState) : outcome AppState :=
  match findArchived nameId (archivedNames appState) with
  | Throws e => Throws e
  | Returns None => Returns appState
  | Returns (Some archivedName) =>
      match withoutArchived nameId (archivedNames appState) with
      | Throws e => Throws e
      | Returns kept =>
          Returns {| generatedNames := generatedNames appState ++ [archivedName];
                     favorites := favorites appState;
                     archivedNames := kept;
                     darkMode := darkMode appState |}
      end
  end.

(** ** Persisted state: what [JSON.parse] yields and how it is loaded *)

Module Storage.

(** Run-time values of the loader.  [parsed] has type [any]: nothing is
    known about its shape.  Numbers are integers here; the loader only
    tests them for truthiness.  [VDate v] is [new Date(v)]. *)
Inductive value :=
| VUndefined
| VNull
| VBool (b : bool)
| VNum (n : Z)
| VStr (s : string)
| VArr (items : list value)
| VObj (props : gmap string value)
| VDate (arg : value).

(** The item under a [localStorage] key, seen through [getItem], the
    test [if (saved)] and [JSON.parse(saved)]. *)
Inductive stored :=
| Absent                      (* getItem returns null *)
| EmptyText                   (* the empty string, which is falsy *)
| Malformed                   (* a non-empty text that is not JSON, such as an opening brace alone: JSON.parse throws *)
| WellFormed (parsed : value) (* a non-empty JSON text and its value *).

Definition andThen {A B} (m : outcome A) (k : A -> outcome B) : outcome B :=
  match m with
  | Returns a => k a
  | Throws e => Throws e
  end.

Notation "x <~ m ;; k" := (andThen m (fun x => k))
  (at level 100, m at next level, right associativity, only parsing).

Definition truthy (v : value) : bool :=
  match v with
  | VUndefined | VNull => false
  | VBool b => b
  | VNum n => negb (n =? 0)%Z
  | VStr s => negb (String.eqb s "")
  | VArr _ | VObj _ | VDate _ => true
  end.

(** [a || b] *)
Definition orElse (a b : value) : value := if truthy a then a else b.

Definition indexed (items : list value) : gmap string value :=
  list_to_map (imap (fun i v => (pretty i, v)) items).

Fixpoint characters (s : string) : list value :=
  match s with
  | EmptyString => []
  | String c s' => VStr (String c EmptyString) :: characters s'
  end.

(** The own enumerable properties, as the object spread [{...v}] copies them. *)
Definition ownProps (v : value) : gmap string value :=
  match v with
  | VObj props => props
  | VArr items => indexed items
  | VStr s => indexed (characters s)
  | _ => ∅
  end.

(** The property read [v.key] for a data property.  The loader reads
    [generatedNames], [favorites], [archivedNames], [darkMode],
    [timestamp], [domains], [rating], [ratingComment] and
    [domainStatus], none of which a built-in prototype defines. *)
Definition get (v : value) (key : string) : outcome value :=
  match v with
  | VUndefined | VNull => Throws TypeError
  | VObj props => Returns (default VUndefined (props !! key))
  | VArr items =>
      Returns (if String.eqb key "length" then VNum (Z.of_nat (length items))
               else default VUndefined (indexed items !! key))
  | VStr s =>
      Returns (if String.eqb key "length" then VNum (Z.of_nat (String.length s))
               else default VUndefined (indexed (characters s) !! key))
  | VBool _ | VNum _ | VDate _ => Returns VUndefined
  end.

Fixpoint mapOutcome (f : value -> outcome value) (items : list value)
    : outcome (list value) :=
  match items with
  | [] => Returns []
  | item :: rest =>
      item' <~ f item ;;
      rest' <~ mapOutcome f rest ;;
      Returns (item' :: rest')
  end.

(** [receiver.map(f)]: only an array has a callable [map]; on anything
    else the call throws (a parsed value is never a function). *)
Definition callMap (receiver : value) (f : value -> outcome value) : outcome value :=
  match receiver with
  | VArr items => items' <~ mapOutcome f items ;; Returns (VArr items')
  | _ => Throws TypeError
  end.

(** The state object built by the loaders; its fields hold whatever the
    stored text held. *)
Record RawAppState := {
  generatedNames : value;
  favorites : value;
  archivedNames : value;
  darkMode : value
}.

Definition emptyRawState : RawAppState :=
  {| generatedNames := VArr []; favorites := VArr [];
     archivedNames := VArr []; darkMode := VBool false |}.

(** Converting a parsed value to a primitive, as [new Date(v)] does with
    its argument, fails or not.  A parsed object answers through
    [valueOf], which gives back the object itself when it is the inherited
    one, and then through [toString]; an own property of that name is
    data, never a function, and shadows the inherited method, so that no
    callable conversion is left and a TypeError is thrown.  A parsed array
    answers through the inherited [toString], which joins its elements:
    [null] and [undefined] count as the empty text, and every other element
    is converted to a string in the same way, a nested object trying
    [toString] before [valueOf] with the same outcome.  Every other value
    is a primitive already, or a date. *)
Fixpoint toPrimitiveThrows (v : value) : bool :=
  match v with
  | VObj props => bool_decide (is_Some (props !! "toString"))
  | VArr items => List.existsb toPrimitiveThrows items
  | _ => false
  end.

(** [new Date(v)]: an unreadable text or number gives an invalid date,
    which is a date all the same; only the conversion of [v] can throw. *)
Definition constructDate (v : value) : outcome value :=
  if toPrimitiveThrows v then Throws TypeError else Returns (VDate v).

(** [name => ({ ...name, timestamp: new Date(name.timestamp) })] *)
Definition reviveTimestamp (item : value) : outcome value :=
  stamp <~ get item "timestamp" ;;
  date <~ constructDate stamp ;;
  Returns (VObj (<[ "timestamp" := date ]> (ownProps item))).

(** The initializer passed to [useState], reading key [saasNameGenState]:
    no [try] surrounds it. *)
Definition useStateInitializer (saved : stored) : outcome RawAppState :=
  match saved with
  | Absent | EmptyText => Returns emptyRawState
  | Malformed => Throws SyntaxError
  | WellFormed parsed =>
      names <~ get parsed "generatedNames" ;;
      revived <~
        (match names with
         | VUndefined | VNull => Returns VUndefined
         | _ => callMap names reviveTimestamp
         end) ;;
      favs <~ get parsed "favorites" ;;
      archived <~ get parsed "archivedNames" ;;
      dark <~ get parsed "darkMode" ;;
      Returns {| generatedNames := orElse revived (VArr []);
                 favorites := orElse favs (VArr []);
                 archivedNames := orElse archived (VArr []);
                 darkMode := orElse dark (VBool false) |}
  end.

(** The function mapped by [migrateOldData]. *)
Definition migrateOne (item : value) : outcome value :=
  doms <~ get item "domains" ;;
  if truthy doms then
    rate <~ get item "rating" ;;
    comment <~ get item "ratingComment" ;;
    Returns (VObj (<[ "ratingComment" := orElse comment (VStr "") ]>
                  (<[ "rating" := orElse rate (VNum 0) ]> (ownProps item))))
  else
    rate <~ get item "rating" ;;
    comment <~ get item "ratingComment" ;;
    legacy <~ get item "domainStatus" ;;
    Returns (VObj (<[ "domains" := VObj {[ ".com" := orElse legacy (VStr "unknown") ]} ]>
                  (<[ "ratingComment" := orElse comment (VStr "") ]>
                  (<[ "rating" := orElse rate (VNum 0) ]> (ownProps item))))).

Definition migrateOldData (names : value) : outcome value :=
  callMap names migrateOne.

(** The [try] block of the loading effect, reading key [saasNameGenerator]. *)
Definition loadEffectBody (parsed : value) : outcome RawAppState :=
  names <~ get parsed "generatedNames" ;;
  migrated <~ migrateOldData (orElse names (VArr [])) ;;
  favs <~ get parsed "favorites" ;;
  archived <~ get parsed "archivedNames" ;;
  migratedArchive <~ migrateOldData (orElse archived (VArr [])) ;;
  dark <~ get parsed "darkMode" ;;
  Returns {| generatedNames := migrated;
             favorites := orElse favs (VArr []);
             archivedNames := migratedArchive;
             darkMode := orElse dark (VBool false) |}.

(** The loading effect: the state after it, given the state before. *)
Definition loadEffect (saved : stored) (current : RawAppState) : RawAppState :=
  match saved with
  | Absent | EmptyText => current
  | Malformed => emptyRawState
  | WellFormed parsed =>
      match loadEffectBody parsed with
      | Returns loaded => loaded
      | Throws _ => emptyRawState
      end
  end.

(** Mounting the component: the initializer, then the effect. *)
Definition mount (state legacy : stored) : outcome RawAppState :=
  initial <~ useStateInitializer state ;;
  Returns (loadEffect legacy initial).

End Storage.

(** ** Further operations of the component *)

Definition setRating (stars : Z) (comment : string) (item : GeneratedName) : GeneratedName :=
  {| id := id item; name := name item; category := category item;
     timestamp := timestamp item; isFavorite := isFavorite item; rating := stars;
     ratingComment := comment; domains := domains item |}.

Definition setDomains (probed : gmap string status) (item : GeneratedName) : GeneratedName :=
  {| id := id item; name := name item; category := category item;
     timestamp := timestamp item; isFavorite := isFavorite item; rating := rating item;
     ratingComment := ratingComment item; domains := probed |}.

(** [archived.map(f)] for a callback that reads a property of its
    argument: an [undefined] entry throws. *)
Fixpoint mapArchived (f : GeneratedName -> GeneratedName)
    (archived : list (option GeneratedName)) : outcome (list (option GeneratedName)) :=
  match archived with
  | [] => Returns []
  | None :: _ => Throws TypeError
  | Some item :: rest =>
      match mapArchived f rest with
      | Returns rest' => Returns (Some (f item) :: rest')
      | Throws e => Throws e
      end
  end.

(** [rateName]: the state after the update (the notification is not part
    of it). *)
Definition rateName (nameId : string) (stars : Z) (comment : string) (prev : AppState)
    : outcome AppState :=
  let rate := fun item => if String.eqb (id item) nameId
                          then setRating stars comment item else item in
  match mapArchived rate (archivedNames prev) with
  | Throws e => Throws e
  | Returns rated =>
      Returns {| generatedNames := List.map rate (generatedNames prev);
                 favorites := favorites prev;
                 archivedNames := rated;
                 darkMode := darkMode prev |}
  end.

Definition clearArchived (prev : AppState) : AppState :=
  {| generatedNames := generatedNames prev; favorites := favorites prev;
     archivedNames := []; darkMode := darkMode prev |}.

(** [recheckArchivedDomains]: the state after it.  Reading [name.name] of
    an [undefined] entry throws inside the [try]; the [catch] reads it
    again for its message and throws in turn, so the call ends there and
    no update is made.  On an empty archive the function returns at once. *)
Definition recheckArchivedDomains (appState : AppState) : outcome AppState :=
  match archivedNames appState with
  | [] => Returns appState
  | _ =>
      match mapArchived (fun item => setDomains (checkMultipleDomains (name item)) item)
                        (archivedNames appState) with
      | Throws e => Throws e
      | Returns updatedArchivedNames =>
          Returns {| generatedNames := generatedNames appState;
                     favorites := favorites appState;
                     archivedNames := updatedArchivedNames;
                     darkMode := darkMode appState |}
      end
  end.

(** *** Filtering ([getFilteredNames]) *)

Inductive ViewMode := activeView | favoritesView | archivedView.

(** The filter controls; [None] is the choice ['all']. *)
Record Filters := {
  viewMode : ViewMode;
  nameLengthFilter : option NameLength;
  availabilityFilter : option status;
  ratingFilter : Z
}.

(** [names.filter(p)] for a predicate that reads a property of its
    argument: an [undefined] entry throws. *)
Fixpoint filterEntries (p : GeneratedName -> bool) (names : list (option GeneratedName))
    : outcome (list (option GeneratedName)) :=
  match names with
  | [] => Returns []
  | None :: _ => Throws TypeError
  | Some item :: rest =>
      match filterEntries p rest with
      | Returns kept => Returns (if p item then Some item :: kept else kept)
      | Throws e => Throws e
      end
  end.

Definition lengthMatches (bucket : NameLength) (item : GeneratedName) : bool :=
  let n := String.length (name item) in
  match bucket with
  | short => (n <=? 6)%nat
  | medium => (6 <? n)%nat && (n <=? 10)%nat
  | long => (10 <? n)%nat
  end.

(** [name.domains?.['.com'] || 'unknown'] *)
Definition comStatus (item : GeneratedName) : status :=
  default unknown (domains item !! ".com").

Definition status_eqb (a b : status) : bool :=
  match a, b with
  | available, available | taken, taken | unknown, unknown => true
  | _, _ => false
  end.

Definition viewSource (mode : ViewMode) (appState : AppState) : list (option GeneratedName) :=
  match mode with
  | activeView => List.map Some (generatedNames appState)
  | favoritesView => List.map Some (List.filter isFavorite (generatedNames appState))
  | archivedView => archivedNames appState
  end.

Definition getFilteredNames (controls : Filters) (appState : AppState)
    : outcome (list (option GeneratedName)) :=
  let names := viewSource (viewMode controls) appState in
  match
    (match nameLengthFilter controls with
     | Some bucket => filterEntries (lengthMatches bucket) names
     | None => Returns names
     end)
  with
  | Throws e => Throws e
  | Returns names =>
      match
        (match availabilityFilter controls with
         | Some wanted => filterEntries (fun item => status_eqb (comStatus item) wanted) names
         | None => Returns names
         end)
      with
      | Throws e => Throws e
      | Returns names =>
          if (0 <? ratingFilter controls)%Z
          then filterEntries (fun item => (ratingFilter controls <=? rating item)%Z) names
          else Returns names
      end
  end.

(** *** Registrar hand-off ([buyDomain]) and the single-domain check *)

(** The text before and the text after the last dot, if there is a dot. *)
Fixpoint splitLastDot (s : string) : option (string * string) :=
  match s with
  | EmptyString => None
  | String c s' =>
      match splitLastDot s' with
      | Some (before, after) => Some (String c before, after)
      | None => if Ascii.eqb c "." then Some (EmptyString, s') else None
      end
  end.

(** LF and CR, which the pattern character [.] does not match. *)
Definition isLineTerminator (c : ascii) : bool :=
  (Js.code c =? 10)%N || (Js.code c =? 13)%N.

(** [domainName.match(/^(.+?)(\.[a-z]{2,})$/)]: groups 1 and 2.  A match
    ends in a dot followed by two or more letters a-z up to the end of
    the text, which makes that dot the last one; what precedes it is
    non-empty and holds no line terminator. *)
Definition matchDomain (domainName : string) : option (string * string) :=
  match splitLastDot domainName with
  | Some (before, after) =>
      if (0 <? String.length before)%nat
         && Js.forallChars (fun c => negb (isLineTerminator c)) before
         && (2 <=? String.length after)%nat
         && Js.forallChars Js.isLower after
      then Some (before, "." +:+ after)
      else None
  | None => None
  end.

(** [buyDomain]: the domain handed to the registrar dialog. *)
Definition buyDomain (domainName : string) : string :=
  let domainMatch := default (domainName, ".com") (matchDomain domainName) in
  let cleanName := domainLabel (fst domainMatch) in
  let extension := if String.eqb (snd domainMatch) "" then ".com" else snd domainMatch in
  cleanName +:+ extension.

(** Which notification [checkSpecificDomain] shows, and for which domain. *)
Inductive domainNotice :=
| NoticeAvailable (domain : string)
| NoticeTaken (domain : string)
| NoticeUnknown (domain : string)
| NoticeFailed.

(** The estimator never throws, so the [catch] is never entered. *)
Definition checkSpecificDomain (domainName : string) : domainNotice :=
  let domain := domainLabel domainName +:+ ".com" in
  match checkDomainAvailability domain with
  | available => NoticeAvailable domain
  | taken => NoticeTaken domain
  | unknown => NoticeUnknown domain
  end.

(** [availableCount] and [takenCount] *)
Definition availableCount (appState : AppState) : nat :=
  length (List.filter (fun item => status_eqb (comStatus item) available)
                      (generatedNames appState)).

Definition takenCount (appState : AppState) : nat :=
  length (List.filter (fun item => status_eqb (comStatus item) taken)
                      (generatedNames appState)).

(* ===================================================================== *)
(** * Part II: specification-side definitions                             *)
(* ===================================================================== *)

(** ** The estimator as the specification words it

    The decision procedure as an ordered list of rules, each answering with
    a status or with no match, the first match winning.  A domain is read
    as name + extension on its lower-cased text: the extension runs from
    the last dot on, the name is everything before that dot. *)

Module EstimatorSpec.

Record parts := {
  whole : string;
  namePart : string;
  extensionPart : string
}.













(** Name + extension: the extension runs from the last dot on, and the name
    is the domain without it; a text without dot is all name. *)
Definition partsOf (domain : string) : parts :=
  let text := Js.toLowerCase domain in
  match splitLastDot text with
  | Some (before, after) =>
      {| whole := text; namePart := before; extensionPart := "." +:+ after |}
  | None =>
      {| whole := text; namePart := text; extensionPart := "" |}
  end.


End EstimatorSpec.

(** ** Views of the pipeline used in the statements *)


(** The names a loop keeps from the lines it is given. *)
Definition survivors (rejected : string -> bool) (names : list string) : list string :=
  List.filter (fun cleanName => negb (rejected cleanName)) (List.map cleanLine names).

(** The text [generateNameWithCohere] resolves to for a payload. *)
Definition responseText (text : option string) : string := Js.orEmpty (Js.trim <$> text).

(** The ids of the active candidates that are flagged as favorites. *)
Definition favoriteIds (st : AppState) : list string :=
  List.map id (List.filter isFavorite (generatedNames st)).

(** [favorites] is the index derived from the flags. *)
Definition favoritesDerived (st : AppState) : Prop := favorites st = favoriteIds st.

(** Every archived entry is a candidate. *)
Definition archiveWellFormed (st : AppState) : Prop :=
  Forall (fun entry => is_Some entry) (archivedNames st).

Definition activeIds (st : AppState) : list string := List.map id (generatedNames st).

(** ** Concrete inputs *)

Definition newline : string := String Js.LF EmptyString.

Definition defaultControls : Controls :=
  {| selectedCategory := "tech"; nameStyle := modern; nameLength := medium; keyword := "" |}.

Definition startsWith (prefix s : string) : bool := String.prefix prefix s.

(** A service that answers the primary prompt with [primary] and the
    fallback prompt with [fallback]. *)
Definition scriptedEnv (primary fallback : reply) : Env :=
  {| cohere := fun prompt => if startsWith "Generate 5" prompt then primary else fallback;
     dateNow := fun k => "1700000000000";
     mathRandom := fun k => "0." +:+ pretty k;
     newDate := fun k => 1700000000000%Z |}.

Definition sampleCandidate (nameId label : string) (flag : bool) : GeneratedName :=
  {| id := nameId; name := label; category := "Technology"; timestamp := 0;
     isFavorite := flag; rating := 0; ratingComment := ""; domains := ∅ |}.

(** One active candidate, flagged as favorite and indexed as such. *)
Definition oneFavorite : AppState :=
  {| generatedNames := [sampleCandidate "1" "CloudFlow" true];
     favorites := ["1"];
     archivedNames := [];
     darkMode := false |}.

(** One archived candidate that still carries its favorite flag. *)
Definition archivedFavorite : AppState :=
  {| generatedNames := [];
     favorites := [];
     archivedNames := [Some (sampleCandidate "1" "CloudFlow" true)];
     darkMode := false |}.


(** A legacy record [{name, domainStatus: "taken"}] and the record the
    specification says it migrates to. *)
Definition legacyRecord (label : string) : Storage.value :=
  Storage.VObj (<[ "name" := Storage.VStr label ]>
               (<[ "domainStatus" := Storage.VStr "taken" ]> ∅)).

Definition migratedWithoutLegacyField (label : string) : Storage.value :=
  Storage.VObj (<[ "name" := Storage.VStr label ]>
               (<[ "rating" := Storage.VNum 0 ]>
               (<[ "ratingComment" := Storage.VStr "" ]>
               (<[ "domains" := Storage.VObj {[ ".com" := Storage.VStr "taken" ]} ]> ∅)))).

Definition migratedRecord (label : string) : Storage.value :=
  Storage.VObj (<[ "name" := Storage.VStr label ]>
               (<[ "domainStatus" := Storage.VStr "taken" ]>
               (<[ "rating" := Storage.VNum 0 ]>
               (<[ "ratingComment" := Storage.VStr "" ]>
               (<[ "domains" := Storage.VObj {[ ".com" := Storage.VStr "taken" ]} ]> ∅))))).

(** ** Views used in the further properties *)

(** [a-z0-9], the characters a domain label is made of. *)
Definition isLabelChar (c : ascii) : bool := Js.isLower c || Js.isDigit c.

(** The length of the label the prober derives from a name. *)
Definition labelLength (label : string) : nat := String.length (domainLabel label).

Definition startsWithLetter (s : string) : bool :=
  match s with
  | EmptyString => false
  | String c _ => Js.isLetter c
  end.

(** What every candidate built by a generation call looks like. *)
Definition freshCandidate (categoryName : string) (item : GeneratedName) : Prop :=
  2 <= String.length (name item) <= 30
  /\ startsWithLetter (name item) = true
  /\ Js.forallChars (fun c => negb (Ascii.eqb c ".") && negb (Ascii.eqb c Js.LF)) (name item) = true
  /\ category item = categoryName
  /\ isFavorite item = false
  /\ rating item = 0%Z
  /\ ratingComment item = ""
  /\ domains item = checkMultipleDomains (name item).

Definition nullish (v : Storage.value) : bool :=
  match v with
  | Storage.VUndefined | Storage.VNull => true
  | _ => false
  end.

(** A record as the migration leaves it: an object with a rating, a
    rating comment and a truthy [domains]. *)
Definition migratedShape (v : Storage.value) : Prop :=
  exists props,
    v = Storage.VObj props
    /\ is_Some (props !! "rating")
    /\ is_Some (props !! "ratingComment")
    /\ Storage.truthy (default Storage.VUndefined (props !! "domains")) = true.

(** The three filters of [getFilteredNames] as one test. *)
Definition passesFilters (controls : Filters) (item : GeneratedName) : bool :=
  match nameLengthFilter controls with
  | Some bucket => lengthMatches bucket item
  | None => true
  end
  && match availabilityFilter controls with
     | Some wanted => status_eqb (comStatus item) wanted
     | None => true
     end
  && ((ratingFilter controls <=? 0)%Z || (ratingFilter controls <=? rating item)%Z).

Definition entryPasses (p : GeneratedName -> bool) (entry : option GeneratedName) : bool :=
  match entry with
  | Some item => p item
  | None => false
  end.

(** The candidate carries the prober's answers for its name. *)
Definition probed (item : GeneratedName) : Prop :=
  domains item = checkMultipleDomains (name item).

Definition allDefined (items : list Storage.value) : bool :=
  List.forallb (fun v => negb (nullish v)) items.

(** An array none of whose items is [null] or [undefined]. *)
Definition isArrayOfDefined (v : Storage.value) : bool :=
  match v with
  | Storage.VArr items => allDefined items
  | _ => false
  end.

(** The stored value of a property, [undefined] when there is none. *)
Definition storedProperty (v : Storage.value) (key : string) : Storage.value :=
  default Storage.VUndefined (Storage.ownProps v !! key).

(** How a migrated record relates to the stored one: the rating and the
    comment are the stored ones when truthy and the defaults otherwise;
    [domains] is the stored one when truthy; every other stored property
    is kept, and none is added. *)
Definition migratedFrom (item item' : Storage.value) : Prop :=
  exists props,
    item' = Storage.VObj props
    /\ props !! "rating"
       = Some (Storage.orElse (storedProperty item "rating") (Storage.VNum 0))
    /\ props !! "ratingComment"
       = Some (Storage.orElse (storedProperty item "ratingComment") (Storage.VStr ""))
    /\ Storage.truthy (default Storage.VUndefined (props !! "domains")) = true
    /\ (Storage.truthy (storedProperty item "domains") = true ->
        props !! "domains" = Storage.ownProps item !! "domains")
    /\ (forall key, key <> "rating" -> key <> "ratingComment" -> key <> "domains" ->
                    props !! key = Storage.ownProps item !! key).

(** An item of the stored list the state initializer can revive: it is
    neither [null] nor [undefined], and a date can be built from its
    stored timestamp. *)
Definition revivableItem (item : Storage.value) : bool :=
  negb (nullish item)
  && negb (Storage.toPrimitiveThrows (storedProperty item "timestamp")).

(** A parsed value the state initializer can load. *)
Definition revivable (parsed : Storage.value) : bool :=
  negb (nullish parsed)
  && (nullish (storedProperty parsed "generatedNames")
      || match storedProperty parsed "generatedNames" with
         | Storage.VArr items => List.forallb revivableItem items
         | _ => false
         end).

(** A stored state whose one candidate has an object with a [toString]
    property for timestamp: the text
    [{"generatedNames":[{"timestamp":{"toString":1}}]}]. *)
Definition shadowedTimestamp : Storage.value :=
  Storage.VObj
    {[ "generatedNames" :=
         Storage.VArr
           [ Storage.VObj
               {[ "timestamp" := Storage.VObj {[ "toString" := Storage.VNum 1 ]} ]} ] ]}.

Definition entryIds (entries : list (option GeneratedName)) : list (option string) :=
  List.map (fun entry => id <$> entry) entries.

Definition occurrences (nameId : string) (items : list GeneratedName) : nat :=
  length (List.filter (fun item => String.eqb (id item) nameId) items).

(* ===================================================================== *)
(** * Part III: properties                                                *)
(* ===================================================================== *)

(** ** Strings *)

Lemma mapChars_length f s : String.length (Js.mapChars f s) = String.length s.
Proof. induction s as [|c s IH]; simpl; [reflexivity | now rewrite IH]. Qed.

Lemma toLowerCase_length s : String.length (Js.toLowerCase s) = String.length s.
Proof. apply mapChars_length. Qed.

Lemma eqb_length a b : String.eqb a b = true -> String.length a = String.length b.
Proof. intros H. apply String.eqb_eq in H. now subst. Qed.


Lemma lowerChar_idem c : Js.lowerChar (Js.lowerChar c) = Js.lowerChar c.
Proof. destruct c as [[] [] [] [] [] [] [] []]; vm_compute; reflexivity. Qed.

Lemma mapChars_fixed f s : Js.allFixed f s -> Js.mapChars f s = s.
Proof.
  induction s as [|c s IH]; simpl; [reflexivity|].
  intros [Hc Hs]. now rewrite Hc, IH.
Qed.

Lemma toLowerCase_allFixed s : Js.allFixed Js.lowerChar (Js.toLowerCase s).
Proof.
  induction s as [|c s IH]; simpl; [exact I|].
  split; [apply lowerChar_idem | exact IH].
Qed.


Lemma split_nonempty sep s : Js.split sep s <> [].
Proof.
  destruct s as [|c s]; simpl; [discriminate|].
  destruct (Ascii.eqb c sep); [discriminate|].
  destruct (Js.split sep s); discriminate.
Qed.


Lemma dropLeading_none p s :
  Js.forallChars (fun c => negb (p c)) s = true -> Js.dropLeading p s = s.
Proof.
  destruct s as [|c s]; simpl; [reflexivity|].
  intros [Hc _]%andb_true_iff. apply negb_true_iff in Hc. now rewrite Hc.
Qed.

Lemma dropTrailing_none p s :
  Js.forallChars (fun c => negb (p c)) s = true -> Js.dropTrailing p s = s.
Proof.
  induction s as [|c s IH]; simpl; [reflexivity|].
  intros [Hc Hs]%andb_true_iff. apply negb_true_iff in Hc.
  rewrite (IH Hs), Hc. now destruct s.
Qed.

Lemma split_none sep s :
  Js.forallChars (fun c => negb (Ascii.eqb c sep)) s = true -> Js.split sep s = [s].
Proof.
  induction s as [|c s IH]; simpl; [reflexivity|].
  intros [Hc Hs]%andb_true_iff. apply negb_true_iff in Hc.
  now rewrite Hc, (IH Hs).
Qed.

Lemma forallChars_impl (p q : ascii -> bool) s :
  (forall c, p c = true -> q c = true) ->
  Js.forallChars p s = true -> Js.forallChars q s = true.
Proof.
  intros Hpq. induction s as [|c s IH]; simpl; [reflexivity|].
  intros [Hc Hs]%andb_true_iff. rewrite (Hpq c Hc), (IH Hs). reflexivity.
Qed.

(** ** Estimator *)

Lemma includes_length (l : list string) (x : string) (n : nat) :
  Forall (fun w => String.length w <= n) l ->
  Js.includes l x = true -> String.length x <= n.
Proof.
  unfold Js.includes. intros Hall Hin.
  apply List.existsb_exists in Hin as (w & Hw & Heq).
  apply String.eqb_eq in Heq. subst w.
  rewrite Forall_forall in Hall. apply Hall. now apply list_elem_of_In.
Qed.

Lemma includes_long (l : list string) (x : string) (n : nat) :
  Forall (fun w => String.length w <= n) l ->
  n < String.length x -> Js.includes l x = false.
Proof.
  intros Hall Hlen. destruct (Js.includes l x) eqn:E; [|reflexivity].
  apply (includes_length _ _ _ Hall) in E. lia.
Qed.



Lemma mapChars_append f a b :
  Js.mapChars f (a +:+ b) = Js.mapChars f a +:+ Js.mapChars f b.
Proof.
  induction a as [|c a IH]; [reflexivity|].
  change (String (f c) (Js.mapChars f (a +:+ b))
          = String (f c) (Js.mapChars f a +:+ Js.mapChars f b)).
  now f_equal.
Qed.

Lemma split_at_separator sep a b :
  Js.forallChars (fun c => negb (Ascii.eqb c sep)) a = true ->
  Js.split sep (a +:+ String sep b) = a :: Js.split sep b.
Proof.
  induction a as [|c a IH].
  - intros _. change (Js.split sep (String sep b) = "" :: Js.split sep b).
    cbn [Js.split]. now rewrite Ascii.eqb_refl.
  - cbn [Js.forallChars]. intros [Hc Ha]%andb_true_iff. apply negb_true_iff in Hc.
    change (Js.split sep (String c (a +:+ String sep b)) = String c a :: Js.split sep b).
    cbn [Js.split]. now rewrite Hc, (IH Ha).
Qed.

Lemma lowerChar_keeps_dots c :
  negb (Ascii.eqb c ".") = true -> negb (Ascii.eqb (Js.lowerChar c) ".") = true.
Proof.
  destruct c as [[] [] [] [] [] [] [] []]; vm_compute; intros H;
    first [ reflexivity | discriminate H ].
Qed.

Lemma toLowerCase_dot_free s :
  Js.forallChars (fun c => negb (Ascii.eqb c ".")) s = true ->
  Js.forallChars (fun c => negb (Ascii.eqb c ".")) (Js.toLowerCase s) = true.
Proof.
  unfold Js.toLowerCase.
  induction s as [|c s IH]; cbn [Js.forallChars Js.mapChars]; [reflexivity|].
  intros [Hc Hs]%andb_true_iff.
  now rewrite (lowerChar_keeps_dots c Hc), (IH Hs).
Qed.

Lemma splitLastDot_none s :
  Js.forallChars (fun c => negb (Ascii.eqb c ".")) s = true -> splitLastDot s = None.
Proof.
  induction s as [|c s IH]; cbn [Js.forallChars splitLastDot]; [reflexivity|].
  intros [Hc Hs]%andb_true_iff. apply negb_true_iff in Hc. now rewrite (IH Hs), Hc.
Qed.

Lemma splitLastDot_last before after :
  Js.forallChars (fun c => negb (Ascii.eqb c ".")) after = true ->
  splitLastDot (before +:+ String "." after) = Some (before, after).
Proof.
  intros Hafter. induction before as [|c before IH].
  - change (splitLastDot (String "." after) = Some ("", after)).
    cbn [splitLastDot]. now rewrite (splitLastDot_none _ Hafter).
  - change (splitLastDot (String c (before +:+ String "." after))
            = Some (String c before, after)).
    cbn [splitLastDot]. now rewrite IH.
Qed.

(** On a domain written as name + "." + extension, neither holding a dot,
    the parts the rules are read on are the lower-cased name and the
    lower-cased extension. *)
Lemma partsOf_name_extension (label ext : string) :
  Js.forallChars (fun c => negb (Ascii.eqb c ".")) label = true ->
  Js.forallChars (fun c => negb (Ascii.eqb c ".")) ext = true ->
  EstimatorSpec.partsOf (label +:+ "." +:+ ext)
  = {| EstimatorSpec.whole := Js.toLowerCase label +:+ "." +:+ Js.toLowerCase ext;
       EstimatorSpec.namePart := Js.toLowerCase label;
       EstimatorSpec.extensionPart := "." +:+ Js.toLowerCase ext |}.
Proof.
  intros Hlabel Hext. unfold EstimatorSpec.partsOf.
  replace (Js.toLowerCase (label +:+ "." +:+ ext))
    with (Js.toLowerCase label +:+ String "." (Js.toLowerCase ext))
    by (unfold Js.toLowerCase; now rewrite mapChars_append).
  now rewrite (splitLastDot_last _ _ (toLowerCase_dot_free ext Hext)).
Qed.








(** Blocklist totality: each well-known domain is taken, whatever the
    later rules would say. *)
Lemma definitelyTaken_all_taken :
  Forall (fun domain => checkDomainAvailability domain = taken) definitelyTaken.
Proof. unfold definitelyTaken. repeat constructor. Qed.

Lemma definitelyTaken_ignores_case (domain : string) :
  Js.includes definitelyTaken (Js.toLowerCase domain) = true ->
  checkDomainAvailability domain = taken.
Proof. unfold checkDomainAvailability. now intros ->. Qed.

(** ** Prober *)

(** Extension coverage: the probe of any name has exactly the ten keys. *)
Lemma checkMultipleDomains_keys (label : string) :
  dom (checkMultipleDomains label) = list_to_set extensions.
Proof.
  unfold checkMultipleDomains, extensions. cbn [foldl list_to_set].
  rewrite !dom_insert_L, dom_empty_L. set_solver.
Qed.

(** ** Sanitizer *)

(** An unwanted word has between 4 and 8 characters. *)
Lemma unwanted_length (cleanName : string) :
  List.existsb (fun word => String.eqb (Js.toLowerCase cleanName) word) unwantedWords = true ->
  4 <= String.length cleanName <= 8.
Proof.
  intros H. apply List.existsb_exists in H as (word & Hin & Heq).
  apply eqb_length in Heq. rewrite toLowerCase_length in Heq. rewrite Heq.
  unfold unwantedWords in Hin. cbn in Hin.
  repeat (destruct Hin as [<- | Hin]; [cbn; lia|]). contradiction.
Qed.

Lemma rejectedPrimary_spec (cleanName : string) :
  rejectedPrimary cleanName = false <->
  2 <= String.length cleanName <= 30
  /\ List.existsb (fun word => String.eqb (Js.toLowerCase cleanName) word) unwantedWords = false.
Proof.
  unfold rejectedPrimary. rewrite !orb_false_iff, !Nat.ltb_ge. intuition lia.
Qed.

(** What a letter is not: a leading or trailing character to strip, white
    space, a line break or a period. *)
Lemma letter_kept c :
  Js.isLetter c = true ->
  negb (notLetter c) = true /\ negb (notNameTail c) = true /\ negb (Js.isSpace c) = true
  /\ negb (Ascii.eqb c Js.LF) = true /\ negb (Ascii.eqb c ".") = true.
Proof.
  destruct c as [[] [] [] [] [] [] [] []]; vm_compute; intros H;
    first [ discriminate H | repeat split ].
Qed.

(** A line made of letters only is its own cleaned text. *)
Lemma cleanLine_letters (nameText : string) :
  Js.forallChars Js.isLetter nameText = true -> cleanLine nameText = nameText.
Proof.
  intros H. unfold cleanLine, Js.trim, Js.first.
  rewrite (dropLeading_none notLetter)
    by (revert H; apply forallChars_impl; intros c Hc; apply (letter_kept c Hc)).
  rewrite (dropTrailing_none notNameTail)
    by (revert H; apply forallChars_impl; intros c Hc; apply (letter_kept c Hc)).
  assert (Hsp : Js.forallChars (fun c => negb (Js.isSpace c)) nameText = true)
    by (revert H; apply forallChars_impl; intros c Hc; apply (letter_kept c Hc)).
  rewrite (dropLeading_none Js.isSpace nameText Hsp), (dropTrailing_none Js.isSpace nameText Hsp).
  rewrite (split_none Js.LF)
    by (revert H; apply forallChars_impl; intros c Hc; apply (letter_kept c Hc)).
  cbn [head default from_option Datatypes.id].
  rewrite (split_none ".")
    by (revert H; apply forallChars_impl; intros c Hc; apply (letter_kept c Hc)).
  cbn [head default from_option Datatypes.id].
  now rewrite (dropLeading_none Js.isSpace nameText Hsp), (dropTrailing_none Js.isSpace nameText Hsp).
Qed.

(** C7: the length boundary of the sanitizer.  A line whose cleaned text has
    exactly 30 characters is accepted, one with 31 is rejected, one with a
    single character is rejected, one with two characters is accepted (no
    unwanted word is that short or that long); and a line made of letters
    only is its own cleaned text, so these bounds are bounds on such raw
    lines. *)
Theorem sanitize_boundary (nameText : string) :
  (String.length (cleanLine nameText) = 30 -> sanitize nameText = Some (cleanLine nameText))
  /\ (String.length (cleanLine nameText) = 31 -> sanitize nameText = None)
  /\ (String.length (cleanLine nameText) = 1 -> sanitize nameText = None)
  /\ (String.length (cleanLine nameText) = 2 -> sanitize nameText = Some (cleanLine nameText))
  /\ (Js.forallChars Js.isLetter nameText = true -> cleanLine nameText = nameText).
Proof.
  unfold sanitize.
  assert (Hshortlong : forall n, String.length (cleanLine nameText) = n ->
            2 <= n <= 30 -> ~ 4 <= n <= 8 ->
            rejectedPrimary (cleanLine nameText) = false).
  { intros n Hn Hrange Hout. apply rejectedPrimary_spec. split; [lia|].
    destruct (List.existsb _ unwantedWords) eqn:E; [|reflexivity].
    apply unwanted_length in E. lia. }
  repeat split; intros Hlen.
  - now rewrite (Hshortlong 30 Hlen) by lia.
  - unfold rejectedPrimary. rewrite Hlen. reflexivity.
  - unfold rejectedPrimary. rewrite Hlen. reflexivity.
  - now rewrite (Hshortlong 2 Hlen) by lia.
  - now apply cleanLine_letters.
Qed.

Lemma sanitize_boundary_witness :
  sanitize "Abcdefghijklmnopqrstuvwxyzabcd" = Some "Abcdefghijklmnopqrstuvwxyzabcd"
  /\ sanitize "Abcdefghijklmnopqrstuvwxyzabcde" = None
  /\ sanitize "x" = None
  /\ sanitize "Go" = Some "Go".
Proof.
  split; [exact (proj1 (sanitize_boundary "Abcdefghijklmnopqrstuvwxyzabcd") eq_refl)|].
  split; [exact (proj1 (proj2 (sanitize_boundary "Abcdefghijklmnopqrstuvwxyzabcde")) eq_refl)|].
  split; [exact (proj1 (proj2 (proj2 (sanitize_boundary "x"))) eq_refl)|].
  exact (proj1 (proj2 (proj2 (proj2 (sanitize_boundary "Go")))) eq_refl).
Defined.

(** ** Orchestrator *)

(** A loop sends no request, never throws, and appends one candidate per
    surviving name, in order. *)
Lemma buildCandidates_run env rejected idSuffix categoryName names acc w :
  exists out,
    buildCandidates env rejected idSuffix categoryName names acc w
      = (Returns out,
         {| requests := requests w;
            built := built w + length (survivors rejected names) |})
    /\ List.map name out = (List.map name acc ++ survivors rejected names)%list.
Proof.
  revert acc w. induction names as [|nameText rest IH]; intros acc w.
  - exists acc. cbn. rewrite Nat.add_0_r, app_nil_r. destruct w; auto.
  - cbn [buildCandidates]. unfold survivors. cbn [List.map List.filter].
    fold (survivors rejected rest).
    destruct (rejected (cleanLine nameText)); cbn [negb].
    + apply IH.
    + unfold bind, nextIndex.
      match goal with
      | |- context [buildCandidates _ _ _ _ rest ?acc' ?w'] =>
          destruct (IH acc' w') as (out & Hrun & Hnames)
      end.
      exists out. rewrite Hrun. cbn [requests built length]. split.
      * do 2 f_equal. lia.
      * rewrite Hnames, List.map_app. cbn. now rewrite <- app_assoc.
Qed.

Lemma survivors_length_map {A} (f : A -> string) (out acc : list A) kept :
  List.map f out = (List.map f acc ++ kept)%list ->
  length out = length acc + length kept.
Proof.
  intros H. apply (f_equal (@length string)) in H.
  now rewrite List.length_map, length_app, List.length_map in H.
Qed.

(** States what the loop that the goal mentions does. *)
Ltac loop_facts H :=
  match goal with
  | |- context [buildCandidates ?e ?r ?s ?c ?n ?a ?w'] =>
      pose proof (buildCandidates_run e r s c n a w') as H
  end.

Section GenerateName.

Variables (env : Env) (ui : Controls) (prev : AppState) (w : World).

(** The primary request fails: one request, nothing committed. *)
Lemma generateName_primary_rejected :
  cohere env (primaryPrompt ui) = Rejected ->
  generateName env ui prev w
    = (Returns (prev, failedToast),
       {| requests := requests w ++ [primaryPrompt ui]; built := built w |}).
Proof.
  intros Hc. unfold generateName, tryCatch, generateNameBody, bind at 1,
    generateNameWithCohere. now rewrite Hc.
Qed.

(** At least three candidates survive: they are merged, after one request. *)
Lemma generateName_enough text :
  cohere env (primaryPrompt ui) = Payload text ->
  3 <= length (survivors rejectedPrimary (nameLines (responseText text))) ->
  exists batch,
    fst (generateName env ui prev w)
      = Returns (mergeHistory batch prev, generatedToast (length batch))
    /\ List.map name batch = survivors rejectedPrimary (nameLines (responseText text))
    /\ requests (snd (generateName env ui prev w)) = (requests w ++ [primaryPrompt ui])%list.
Proof.
  intros Hc Hlen.
  unfold generateName, tryCatch, generateNameBody, bind, generateNameWithCohere, primaryLoop.
  rewrite Hc. fold (responseText text).
  loop_facts Hloop. destruct Hloop as (batch & Hrun & Hnames).
  cbn [List.map app] in Hnames.
  exists batch. rewrite Hrun.
  pose proof (survivors_length_map name batch [] _ Hnames) as Hl. cbn [length List.map Nat.add] in Hl.
  replace (length batch <? 3)%nat with false by (symmetry; apply Nat.ltb_ge; lia).
  unfold ret. cbn [fst snd requests]. auto.
Qed.

(** Fewer than three survive and the fallback request fails: two
    requests, nothing committed, the failure notified. *)
Lemma generateName_fallback_rejected text :
  cohere env (primaryPrompt ui) = Payload text ->
  length (survivors rejectedPrimary (nameLines (responseText text))) < 3 ->
  cohere env (fallbackPromptFor (categoryNameOf (selectedCategory ui))) = Rejected ->
  fst (generateName env ui prev w) = Returns (prev, failedToast)
  /\ requests (snd (generateName env ui prev w))
     = ((requests w ++ [primaryPrompt ui])
        ++ [fallbackPromptFor (categoryNameOf (selectedCategory ui))])%list.
Proof.
  intros Hc Hlen Hf.
  unfold generateName, tryCatch, generateNameBody, bind, generateNameWithCohere, primaryLoop.
  rewrite Hc. fold (responseText text).
  loop_facts Hloop. destruct Hloop as (batch & Hrun & Hnames).
  cbn [List.map app] in Hnames.
  rewrite Hrun.
  pose proof (survivors_length_map name batch [] _ Hnames) as Hl. cbn [length List.map Nat.add] in Hl.
  replace (length batch <? 3)%nat with true by (symmetry; apply Nat.ltb_lt; lia).
  rewrite Hf. cbn [fst snd requests]. auto.
Qed.

(** Fewer than three survive and the fallback request succeeds: two
    requests, and the fallback candidates follow the primary ones. *)
Lemma generateName_fallback_ok text text' :
  cohere env (primaryPrompt ui) = Payload text ->
  length (survivors rejectedPrimary (nameLines (responseText text))) < 3 ->
  cohere env (fallbackPromptFor (categoryNameOf (selectedCategory ui))) = Payload text' ->
  exists batch,
    fst (generateName env ui prev w)
      = Returns (mergeHistory batch prev, generatedToast (length batch))
    /\ List.map name batch
       = (survivors rejectedPrimary (nameLines (responseText text))
          ++ survivors rejectedFallback (nameLines (responseText text')))%list
    /\ requests (snd (generateName env ui prev w))
       = ((requests w ++ [primaryPrompt ui])
        ++ [fallbackPromptFor (categoryNameOf (selectedCategory ui))])%list.
Proof.
  intros Hc Hlen Hf.
  unfold generateName, tryCatch, generateNameBody, bind, generateNameWithCohere,
    primaryLoop, fallbackLoop.
  rewrite Hc. fold (responseText text).
  loop_facts Hloop. destruct Hloop as (batch & Hrun & Hnames).
  cbn [List.map app] in Hnames.
  rewrite Hrun.
  pose proof (survivors_length_map name batch [] _ Hnames) as Hl. cbn [length List.map Nat.add] in Hl.
  replace (length batch <? 3)%nat with true by (symmetry; apply Nat.ltb_lt; lia).
  rewrite Hf. fold (responseText text').
  loop_facts Hloop. destruct Hloop as (all & Hrun' & Hnames').
  exists all. rewrite Hrun'. rewrite Hnames in Hnames'. unfold ret. cbn [fst snd requests]. auto.
Qed.

End GenerateName.

(** The names a primary loop keeps are the lines [sanitize] accepts. *)
Lemma survivors_sanitize (names : list string) :
  survivors rejectedPrimary names = omap sanitize names.
Proof.
  unfold survivors. induction names as [|nameText rest IH]; [reflexivity|].
  change (omap sanitize (nameText :: rest))
    with (match sanitize nameText with
          | Some kept => kept :: omap sanitize rest
          | None => omap sanitize rest
          end).
  cbn [List.map List.filter]. rewrite IH. unfold sanitize.
  now destruct (rejectedPrimary (cleanLine nameText)).
Qed.

(** C5: the requests a generation call sends are the primary prompt,
    followed, when that request is answered, by exactly one fallback prompt
    if fewer than 3 names survive the primary sanitization and by nothing
    if 3 or more survive: the fallback is never followed by a further
    round. *)
Theorem fallback_requested_once env ui prev w :
  requests (snd (generateName env ui prev w))
  = (requests w ++ primaryPrompt ui ::
       match cohere env (primaryPrompt ui) with
       | Rejected => []
       | Payload text =>
           if (length (survivors rejectedPrimary (nameLines (responseText text))) <? 3)%nat
           then [fallbackPromptFor (categoryNameOf (selectedCategory ui))]
           else []
       end)%list.
Proof.
  destruct (cohere env (primaryPrompt ui)) as [|text] eqn:Hc.
  - now rewrite (generateName_primary_rejected env ui prev w Hc).
  - destruct (length _ <? 3)%nat eqn:Hlen.
    + apply Nat.ltb_lt in Hlen.
      destruct (cohere env (fallbackPromptFor (categoryNameOf (selectedCategory ui))))
        as [|text'] eqn:Hf.
      * destruct (generateName_fallback_rejected env ui prev w text Hc Hlen Hf) as [_ ->].
        now rewrite <- app_assoc.
      * destruct (generateName_fallback_ok env ui prev w text text' Hc Hlen Hf)
          as (batch & _ & _ & ->).
        now rewrite <- app_assoc.
    + apply Nat.ltb_ge in Hlen.
      destruct (generateName_enough env ui prev w text Hc Hlen) as (batch & _ & _ & ->).
      reflexivity.
Qed.

Lemma fallback_requested_once_witness :
  requests (snd (generateName
                   (scriptedEnv (Payload (Some ("CloudFlow" +:+ newline +:+ "DataSync")))
                                (Payload (Some "TeamHub")))
                   defaultControls emptyState startWorld))
  = [ primaryPrompt defaultControls; fallbackPromptFor "Technology" ]
  /\ requests (snd (generateName
                   (scriptedEnv
                      (Payload (Some ("CloudFlow" +:+ newline +:+ "DataSync" +:+ newline
                                      +:+ "TeamHub" +:+ newline +:+ "here" +:+ newline +:+ "x")))
                      (Payload (Some "WorkSpace")))
                   defaultControls emptyState startWorld))
     = [ primaryPrompt defaultControls ].
Proof.
  split.
  - exact (fallback_requested_once
             (scriptedEnv (Payload (Some ("CloudFlow" +:+ newline +:+ "DataSync")))
                          (Payload (Some "TeamHub")))
             defaultControls emptyState startWorld).
  - exact (fallback_requested_once
             (scriptedEnv
                (Payload (Some ("CloudFlow" +:+ newline +:+ "DataSync" +:+ newline
                                +:+ "TeamHub" +:+ newline +:+ "here" +:+ newline +:+ "x")))
                (Payload (Some "WorkSpace")))
             defaultControls emptyState startWorld).
Defined.




(** The fallback filter is the primary one without the unwanted words. *)
Lemma rejectedFallback_weaker (cleanName : string) :
  rejectedPrimary cleanName
  = rejectedFallback cleanName
    || List.existsb (fun word => String.eqb (Js.toLowerCase cleanName) word) unwantedWords.
Proof. reflexivity. Qed.

(** A line whose cleaned text is an unwanted word is dropped by the
    primary loop and kept by the fallback loop. *)
Lemma unwanted_word_kept_by_fallback (nameText : string) :
  List.existsb (fun word => String.eqb (Js.toLowerCase (cleanLine nameText)) word)
               unwantedWords = true ->
  sanitize nameText = None /\ sanitizeFallback nameText = Some (cleanLine nameText).
Proof.
  intros Hword. pose proof (unwanted_length _ Hword) as Hlen.
  unfold sanitize, sanitizeFallback, rejectedPrimary, rejectedFallback.
  rewrite Hword, orb_true_r.
  replace (30 <? String.length (cleanLine nameText))%nat with false
    by (symmetry; apply Nat.ltb_ge; lia).
  replace (String.length (cleanLine nameText) <? 2)%nat with false
    by (symmetry; apply Nat.ltb_ge; lia).
  now split.
Qed.

(** C3, on the code: the fallback loop filters by length only.  The line
    "Business" is rejected by the primary sanitizer and accepted by the
    fallback one, and a run whose fallback response is that line commits a
    candidate of that name after the two primary ones. *)
Theorem fallback_keeps_unwanted_word :
  sanitize "Business" = None
  /\ sanitizeFallback "Business" = Some "Business"
  /\ match fst (generateName
                  (scriptedEnv (Payload (Some ("CloudFlow" +:+ newline +:+ "DataSync")))
                               (Payload (Some "Business")))
                  defaultControls emptyState startWorld) with
     | Returns (st, _) => List.map name (generatedNames st)
     | Throws _ => []
     end = [ "CloudFlow"; "DataSync"; "Business" ].
Proof. repeat split; vm_compute; reflexivity. Qed.

(** ** History merger *)

Lemma generateName_commits_merge env ui prev w st note :
  fst (generateName env ui prev w) = Returns (st, note) ->
  (st = prev /\ note = failedToast)
  \/ exists batch, st = mergeHistory batch prev /\ note = generatedToast (length batch).
Proof.
  intros Hrun.
  destruct (cohere env (primaryPrompt ui)) as [|text] eqn:Hc.
  - rewrite (generateName_primary_rejected env ui prev w Hc) in Hrun.
    injection Hrun as <- <-. now left.
  - destruct (Nat.lt_ge_cases
                (length (survivors rejectedPrimary (nameLines (responseText text)))) 3)
      as [Hlen | Hlen].
    + destruct (cohere env (fallbackPromptFor (categoryNameOf (selectedCategory ui))))
        as [|text'] eqn:Hf.
      * rewrite (proj1 (generateName_fallback_rejected env ui prev w text Hc Hlen Hf)) in Hrun.
        injection Hrun as <- <-. now left.
      * destruct (generateName_fallback_ok env ui prev w text text' Hc Hlen Hf)
          as (batch & Hb & _). rewrite Hb in Hrun.
        injection Hrun as <- <-. right. now exists batch.
    + destruct (generateName_enough env ui prev w text Hc Hlen) as (batch & Hb & _).
      rewrite Hb in Hrun. injection Hrun as <- <-. right. now exists batch.
Qed.

(** C8: the merge is the new batch followed by the existing history, cut to
    its first 20 entries; a batch of 5 merged into a history of 18 gives 20
    entries, the batch first, then the 15 most recent prior entries, the 3
    oldest being dropped. *)
Theorem mergeHistory_prepends_and_truncates (batch : list GeneratedName) (prev : AppState) :
  generatedNames (mergeHistory batch prev) = take 20 (batch ++ generatedNames prev)%list
  /\ length (generatedNames (mergeHistory batch prev)) <= 20
  /\ (length batch = 5 -> length (generatedNames prev) = 18 ->
      length (generatedNames (mergeHistory batch prev)) = 20
      /\ generatedNames (mergeHistory batch prev)
         = (batch ++ take 15 (generatedNames prev))%list
      /\ generatedNames prev
         = (take 15 (generatedNames prev) ++ drop 15 (generatedNames prev))%list
      /\ length (drop 15 (generatedNames prev)) = 3).
Proof.
  cbn [mergeHistory generatedNames].
  split; [reflexivity|]. split.
  - rewrite length_take. lia.
  - intros Hb Hh. repeat split.
    + rewrite length_take, length_app. lia.
    + rewrite take_app, Hb. rewrite (take_ge batch) by lia. reflexivity.
    + now rewrite take_drop.
    + rewrite length_drop. lia.
Qed.

Lemma mergeHistory_prepends_and_truncates_witness :
  let batch := List.map (fun k => sampleCandidate (pretty k) "New" false) (seq 0 5) in
  let history := List.map (fun k => sampleCandidate (pretty k) "Old" false) (seq 5 18) in
  let prev := {| generatedNames := history; favorites := []; archivedNames := [];
                 darkMode := false |} in
  length (generatedNames (mergeHistory batch prev)) = 20
  /\ generatedNames (mergeHistory batch prev) = (batch ++ take 15 history)%list
  /\ history = (take 15 history ++ drop 15 history)%list
  /\ length (drop 15 history) = 3.
Proof.
  intros batch history prev.
  exact (proj2 (proj2 (mergeHistory_prepends_and_truncates batch prev)) eq_refl eq_refl).
Defined.

(** ** Lifecycle *)

(** [toggleFavorite] recomputes the index from the flags. *)
Lemma toggleFavorite_derived nameId prev : favoritesDerived (toggleFavorite nameId prev).
Proof. reflexivity. Qed.

(** C4, on the code: [archiveName] and [restoreName] copy [favorites]
    unchanged.  Archiving the one favorite (reached by [toggleFavorite])
    leaves its id in the index although no active candidate is flagged;
    restoring an archived candidate that carries the flag leaves the
    index without its id. *)
Theorem archive_restore_leave_favorites_stale :
  oneFavorite
    = toggleFavorite "1" {| generatedNames := [sampleCandidate "1" "CloudFlow" false];
                            favorites := []; archivedNames := []; darkMode := false |}
  /\ favoritesDerived oneFavorite
  /\ favorites (archiveName "1" oneFavorite) = ["1"]
  /\ favoriteIds (archiveName "1" oneFavorite) = []
  /\ ~ favoritesDerived (archiveName "1" oneFavorite)
  /\ favoritesDerived archivedFavorite
  /\ exists st, restoreName "1" archivedFavorite = Returns st
                /\ favorites st = [] /\ favoriteIds st = ["1"]
                /\ ~ favoritesDerived st.
Proof.
  repeat split; try discriminate.
  eexists. repeat split; discriminate.
Qed.

Lemma find_absent nameId (items : list GeneratedName) :
  ~ In nameId (List.map id items) ->
  List.find (fun n => String.eqb (id n) nameId) items = None
  /\ List.filter (fun item => negb (String.eqb (id item) nameId)) items = items.
Proof.
  induction items as [|item rest IH]; [now split|].
  cbn [List.map In List.find List.filter]. intros Hnot.
  destruct (String.eqb_spec (id item) nameId) as [Heq | Hne].
  - exfalso. apply Hnot. now left.
  - destruct IH as [Hfind Hfilter]; [tauto|]. cbn [negb]. now rewrite Hfilter.
Qed.

Lemma find_present nameId (items : list GeneratedName) :
  In nameId (List.map id items) ->
  is_Some (List.find (fun n => String.eqb (id n) nameId) items).
Proof.
  induction items as [|item rest IH]; [intros []|].
  cbn [List.map In List.find]. intros Hin.
  destruct (String.eqb_spec (id item) nameId) as [Heq | Hne]; [now eexists|].
  apply IH. tauto.
Qed.

(** C10: archiving an id that names no active candidate leaves the active
    collection as it was and appends an [undefined] entry to the archive;
    hence, from a well-formed archive, the archive stays well-formed
    exactly when the id names an active candidate. *)
Theorem archiveName_needs_active_id (nameId : string) (prev : AppState) :
  (~ In nameId (activeIds prev) ->
     generatedNames (archiveName nameId prev) = generatedNames prev
     /\ archivedNames (archiveName nameId prev) = (archivedNames prev ++ [None])%list)
  /\ (archiveWellFormed prev ->
      (archiveWellFormed (archiveName nameId prev) <-> In nameId (activeIds prev))).
Proof.
  unfold activeIds, archiveWellFormed. cbn [archiveName generatedNames archivedNames].
  split.
  - intros Hnot. destruct (find_absent nameId _ Hnot) as [-> ->]. now split.
  - intros Hwf. rewrite Forall_app, Forall_singleton. split.
    + intros [_ Hsome].
      destruct (in_dec string_dec nameId (List.map id (generatedNames prev))) as [Hin | Hnot];
        [exact Hin|].
      destruct (find_absent nameId _ Hnot) as [Hfind _]. rewrite Hfind in Hsome.
      now destruct Hsome.
    + intros Hin. split; [exact Hwf | now apply find_present].
Qed.

Lemma archiveName_needs_active_id_witness :
  generatedNames (archiveName "2" oneFavorite) = generatedNames oneFavorite
  /\ archivedNames (archiveName "2" oneFavorite) = [None]
  /\ ~ archiveWellFormed (archiveName "2" oneFavorite)
  /\ archiveWellFormed (archiveName "1" oneFavorite).
Proof.
  assert (Habsent : ~ In "2" (activeIds oneFavorite)).
  { cbn. intros [H | []]. discriminate H. }
  assert (Hwf : archiveWellFormed oneFavorite) by constructor.
  destruct (archiveName_needs_active_id "2" oneFavorite) as [Hleft Hiff].
  destruct (Hleft Habsent) as [Hactive Harchive].
  split; [exact Hactive|]. split; [exact Harchive|]. split.
  - intros H. apply Habsent. exact (proj1 (Hiff Hwf) H).
  - apply (proj2 (archiveName_needs_active_id "1" oneFavorite)); [exact Hwf|].
    cbn. now left.
Defined.

(** ** Persisted state *)

Section Migration.
Import Storage.

Lemma orElse_idem a b : orElse (orElse a b) b = orElse a b.
Proof. unfold orElse. destruct (truthy a) eqn:Ha; [now rewrite Ha | now destruct (truthy b)]. Qed.

(** Away from [length], a property read sees the own properties. *)
Lemma get_ownProps item key :
  String.eqb key "length" = false ->
  item <> VUndefined -> item <> VNull ->
  get item key = Returns (default VUndefined (ownProps item !! key)).
Proof.
  intros Hkey Hu Hn. destruct item; cbn [get ownProps]; try congruence;
    rewrite ?Hkey; try reflexivity.
Qed.

Lemma get_throws item key e :
  get item key = Throws e -> item = VUndefined \/ item = VNull.
Proof. destruct item; cbn; intros H; try discriminate H; auto. Qed.

Lemma migrateOne_idem item item' :
  migrateOne item = Returns item' -> migrateOne item' = Returns item'.
Proof.
  assert (Hcase : (item <> VUndefined /\ item <> VNull) \/ migrateOne item = Throws TypeError)
    by (destruct item; auto; left; split; discriminate).
  destruct Hcase as [[Hu Hn] | ->]; [|discriminate].
  unfold migrateOne at 1.
  rewrite !get_ownProps by (reflexivity || assumption).
  cbn [andThen].
  set (props := ownProps item).
  destruct (truthy (default VUndefined (props !! "domains"))) eqn:Hd;
    intros [= <-]; unfold migrateOne;
    rewrite !get_ownProps by (reflexivity || discriminate);
    cbn [andThen ownProps].
  - rewrite !lookup_insert_ne by discriminate.
    rewrite Hd.
    rewrite lookup_insert_eq, (lookup_insert_ne _ "ratingComment" "rating") by discriminate.
    rewrite lookup_insert_eq. cbn [default from_option Datatypes.id].
    rewrite !orElse_idem.
    do 2 f_equal. rewrite (insert_id _ "rating").
    + apply insert_id. apply lookup_insert_eq.
    + rewrite lookup_insert_ne by discriminate. apply lookup_insert_eq.
  - rewrite lookup_insert_eq. cbn [default from_option Datatypes.id truthy].
    rewrite (lookup_insert_ne _ "domains" "rating") by discriminate.
    rewrite (lookup_insert_ne _ "ratingComment" "rating") by discriminate.
    rewrite lookup_insert_eq.
    rewrite (lookup_insert_ne _ "domains" "ratingComment") by discriminate.
    rewrite lookup_insert_eq. cbn [default from_option Datatypes.id].
    rewrite !orElse_idem.
    do 2 f_equal. rewrite (insert_id _ "rating").
    + apply insert_id. rewrite lookup_insert_ne by discriminate. apply lookup_insert_eq.
    + rewrite !lookup_insert_ne by discriminate. apply lookup_insert_eq.
Qed.

Lemma mapOutcome_idem f items items' :
  (forall item item', f item = Returns item' -> f item' = Returns item') ->
  mapOutcome f items = Returns items' -> mapOutcome f items' = Returns items'.
Proof.
  intros Hf. revert items'. induction items as [|item rest IH]; intros items'.
  - now intros [= <-].
  - cbn [mapOutcome]. destruct (f item) as [item1|] eqn:Hitem; [|discriminate].
    cbn [andThen]. destruct (mapOutcome f rest) as [rest1|] eqn:Hrest; [|discriminate].
    cbn [andThen]. intros [= <-]. cbn [mapOutcome].
    now rewrite (Hf _ _ Hitem), (IH rest1 eq_refl).
Qed.

Lemma migrateOldData_idem names migrated :
  migrateOldData names = Returns migrated -> migrateOldData migrated = Returns migrated.
Proof.
  unfold migrateOldData, callMap. destruct names; try discriminate.
  destruct (mapOutcome migrateOne items) as [items'|] eqn:Hmap; [|discriminate].
  cbn [andThen]. intros [= <-].
  now rewrite (mapOutcome_idem _ _ _ migrateOne_idem Hmap).
Qed.

End Migration.

(** C9, as the code has it: a stored record [{name, domainStatus: "taken"}]
    migrates to the record that keeps both stored fields and gains
    [rating: 0], [ratingComment: ""] and [domains: {".com": "taken"}]; and
    whatever [migrateOldData] returns, migrating it again returns it
    unchanged. *)
Theorem migrateOldData_legacy_and_idempotent :
  (forall label,
      Storage.migrateOldData (Storage.VArr [legacyRecord label])
      = Returns (Storage.VArr [migratedRecord label]))
  /\ (forall names migrated,
        Storage.migrateOldData names = Returns migrated ->
        Storage.migrateOldData migrated = Returns migrated).
Proof.
  split.
  - intros label. vm_compute. reflexivity.
  - exact migrateOldData_idem.
Qed.

Lemma migrateOldData_legacy_and_idempotent_witness :
  Storage.migrateOldData (Storage.VArr [migratedRecord "Acme"])
  = Returns (Storage.VArr [migratedRecord "Acme"]).
Proof.
  exact (proj2 migrateOldData_legacy_and_idempotent
               (Storage.VArr [legacyRecord "Acme"])
               (Storage.VArr [migratedRecord "Acme"])
               (proj1 migrateOldData_legacy_and_idempotent "Acme")).
Defined.

(** C9, as stated, fails: the migrated record is not the four-field record,
    since the spread keeps the stored [domainStatus]. *)
Lemma migrateOldData_keeps_domainStatus :
  Storage.migrateOldData (Storage.VArr [legacyRecord "Acme"])
  <> Returns (Storage.VArr [migratedWithoutLegacyField "Acme"])
  /\ (exists props,
        Storage.migrateOldData (Storage.VArr [legacyRecord "Acme"])
        = Returns (Storage.VArr [Storage.VObj props])
        /\ props !! "domainStatus" = Some (Storage.VStr "taken")).
Proof.
  split.
  - intros H. vm_compute in H. discriminate H.
  - eexists. split; vm_compute; reflexivity.
Qed.

(** C1, on the code: the initializer of the state parses the stored text
    outside any [try].  On a malformed text it throws, and so does the
    mounting of the component; the loading effect, which reads the other
    key inside a [try], falls back to the empty state on the same text. *)
Theorem useStateInitializer_throws_on_malformed :
  Storage.useStateInitializer Storage.Malformed = Throws SyntaxError
  /\ (forall legacy, Storage.mount Storage.Malformed legacy = Throws SyntaxError)
  /\ (forall current, Storage.loadEffect Storage.Malformed current = Storage.emptyRawState)
  /\ Storage.useStateInitializer (Storage.WellFormed Storage.VNull) = Throws TypeError.
Proof. repeat split. Qed.

(* ===================================================================== *)
(** * Part IV: further properties of the code                             *)
(* ===================================================================== *)

(** ** Estimator and prober *)

(** Splits the goal along the tests of the estimator. *)
Ltac estimator_cases :=
  unfold checkDomainAvailability;
  repeat match goal with
         | |- context [if ?b then _ else _] => destruct b
         end.

(** The estimator answers [available] or [taken], never [unknown]. *)
Theorem checkDomainAvailability_never_unknown (domain : string) :
  checkDomainAvailability domain <> unknown.
Proof. estimator_cases; discriminate. Qed.

Lemma toLowerCase_idem s : Js.toLowerCase (Js.toLowerCase s) = Js.toLowerCase s.
Proof. apply mapChars_fixed, toLowerCase_allFixed. Qed.

(** The estimator ignores letter case: a domain and its lower-cased text
    get the same answer. *)
Theorem checkDomainAvailability_ignores_case (domain : string) :
  checkDomainAvailability (Js.toLowerCase domain) = checkDomainAvailability domain.
Proof. unfold checkDomainAvailability. now rewrite toLowerCase_idem. Qed.

Lemma filterChars_forall p s : Js.forallChars p (Js.filterChars p s) = true.
Proof.
  induction s as [|c s IH]; cbn [Js.filterChars]; [reflexivity|].
  destruct (p c) eqn:Hc; [|exact IH]. cbn [Js.forallChars]. now rewrite Hc, IH.
Qed.

Lemma domainLabel_chars label : Js.forallChars isLabelChar (domainLabel label) = true.
Proof. apply filterChars_forall. Qed.

Lemma labelChar_facts c :
  isLabelChar c = true ->
  Js.lowerChar c = c /\ negb (Ascii.eqb c ".") = true /\ negb (isLineTerminator c) = true
  /\ isLabelChar (Js.lowerChar c) = true.
Proof.
  destruct c as [[] [] [] [] [] [] [] []]; vm_compute; intros H;
    first [ discriminate H | repeat split ].
Qed.

Lemma forallChars_allFixed (p : ascii -> bool) f s :
  (forall c, p c = true -> f c = c) -> Js.forallChars p s = true -> Js.allFixed f s.
Proof.
  intros Hp. induction s as [|c s IH]; cbn; [trivial|].
  intros [Hc Hs]%andb_true_iff. split; auto.
Qed.

Lemma filterChars_all p s : Js.forallChars p s = true -> Js.filterChars p s = s.
Proof.
  induction s as [|c s IH]; cbn [Js.forallChars Js.filterChars]; [reflexivity|].
  intros [Hc Hs]%andb_true_iff. now rewrite Hc, (IH Hs).
Qed.

Lemma label_lowered label :
  Js.forallChars isLabelChar label = true -> Js.toLowerCase label = label.
Proof.
  intros H. apply mapChars_fixed.
  revert H. apply forallChars_allFixed. intros c Hc. apply (labelChar_facts c Hc).
Qed.

Lemma label_dot_free label :
  Js.forallChars isLabelChar label = true ->
  Js.forallChars (fun c => negb (Ascii.eqb c ".")) label = true.
Proof. apply forallChars_impl. intros c Hc. apply (labelChar_facts c Hc). Qed.

(** Normalising a name twice is normalising it once. *)
Lemma domainLabel_idem label : domainLabel (domainLabel label) = domainLabel label.
Proof.
  unfold domainLabel at 1. rewrite (label_lowered _ (domainLabel_chars label)).
  apply filterChars_all. apply domainLabel_chars.
Qed.

(** On a label of letters a-z and digits followed by a dot and a
    lower-case extension without dot, the estimator sees the label as the
    name and the extension as the extension. *)
Lemma check_label_extension (label ext : string) :
  Js.forallChars isLabelChar label = true ->
  Js.forallChars isLabelChar ext = true ->
  checkDomainAvailability (label +:+ "." +:+ ext)
  = if Js.includes definitelyTaken (label +:+ "." +:+ ext) then taken
    else if (String.length label <=? 4)%nat then taken
    else if Js.includes commonWords label then taken
    else if String.eqb ext "com" then
      if (String.length label <=? 6)%nat || Js.testWordsIgnoreCase genericWords label
      then taken else available
    else if Js.includes newerExtensions ext then available
    else if Js.includes conservativeExtensions ext then
      if (String.length label <=? 5)%nat then taken else available
    else available.
Proof.
  intros Hlabel Hext. unfold checkDomainAvailability.
  replace (Js.toLowerCase (label +:+ "." +:+ ext)) with (label +:+ String "." ext).
  2:{ unfold Js.toLowerCase. rewrite mapChars_append.
      change (Js.mapChars Js.lowerChar ("." +:+ ext))
        with (String "." (Js.mapChars Js.lowerChar ext)).
      fold (Js.toLowerCase label). fold (Js.toLowerCase ext).
      now rewrite (label_lowered label Hlabel), (label_lowered ext Hext). }
  rewrite (split_at_separator "." _ _ (label_dot_free label Hlabel)).
  rewrite (split_none "." _ (label_dot_free ext Hext)).
  unfold Js.first, Js.pop. cbn [head last default from_option Datatypes.id].
  change (label +:+ "." +:+ ext) with (label +:+ String "." ext).
  destruct (Js.includes definitelyTaken _); [reflexivity|].
  destruct (String.length label <=? 4)%nat; [reflexivity|].
  destruct (Js.includes commonWords label); [reflexivity|].
  assert (Hor : Js.orEmpty (Some ext) = ext).
  { unfold Js.orEmpty. destruct (String.eqb ext "") eqn:E; [|reflexivity].
    apply String.eqb_eq in E. now subst. }
  rewrite Hor.
  destruct (String.eqb_spec ext "com") as [-> | Hne].
  - now rewrite bool_decide_eq_true_2.
  - rewrite bool_decide_eq_false_2; [reflexivity | congruence].
Qed.

(** A well-known domain is under .com or .org. *)
Lemma definitelyTaken_extension (label ext : string) :
  Js.forallChars isLabelChar label = true ->
  Js.forallChars isLabelChar ext = true ->
  Js.includes definitelyTaken (label +:+ "." +:+ ext) = true ->
  ext = "com" \/ (ext = "org" /\ label = "wikipedia").
Proof.
  intros Hlabel Hext Hin. unfold Js.includes in Hin.
  apply List.existsb_exists in Hin as (known & Hknown & Heq).
  apply String.eqb_eq in Heq.
  assert (Hsplit : Js.split "." known = [label; ext]).
  { rewrite <- Heq. change (label +:+ "." +:+ ext) with (label +:+ String "." ext).
    rewrite (split_at_separator "." _ _ (label_dot_free label Hlabel)).
    now rewrite (split_none "." _ (label_dot_free ext Hext)). }
  clear Heq. unfold definitelyTaken in Hknown. cbn [In] in Hknown.
  repeat (destruct Hknown as [<- | Hknown];
          [vm_compute in Hsplit; injection Hsplit as <- <-; auto|]).
  contradiction.
Qed.

(** What the prober records under a key. *)
Lemma probe_lookup (label ext : string) :
  checkMultipleDomains label !! ext
  = if Js.includes extensions ext
    then Some (checkDomainAvailability (domainLabel label +:+ ext))
    else None.
Proof.
  unfold checkMultipleDomains, extensions, Js.includes.
  cbn [foldl List.existsb].
  repeat (rewrite lookup_insert; destruct (decide _) as [<- | ?]; [reflexivity|]).
  rewrite lookup_empty.
  repeat match goal with
         | H : ?k <> ext |- _ =>
             replace (String.eqb ext k) with false
               by (symmetry; apply String.eqb_neq; congruence);
             clear H
         end.
  reflexivity.
Qed.

(** Extension coverage: probing any name records an answer for each of
    the ten extensions and for nothing else, the answer being the
    estimator's for the normalised name followed by the extension, hence
    never [unknown]. *)
Theorem checkMultipleDomains_covers_extensions (label ext : string) :
  dom (checkMultipleDomains label) = list_to_set extensions
  /\ checkMultipleDomains label !! ext
     = (if Js.includes extensions ext
        then Some (checkDomainAvailability (domainLabel label +:+ ext))
        else None)
  /\ checkMultipleDomains label !! ext <> Some unknown.
Proof.
  split; [apply checkMultipleDomains_keys|].
  split; [apply probe_lookup|].
  rewrite probe_lookup. destruct (Js.includes extensions ext); [|discriminate].
  intros [= Hunknown]. revert Hunknown. estimator_cases; discriminate.
Qed.

(** Names that differ only in letter case or in characters outside
    [a-z0-9] are probed alike. *)
Theorem checkMultipleDomains_normalises (label : string) :
  checkMultipleDomains (domainLabel label) = checkMultipleDomains label
  /\ checkMultipleDomains (Js.toLowerCase label) = checkMultipleDomains label.
Proof.
  unfold checkMultipleDomains. split.
  - now rewrite domainLabel_idem.
  - unfold domainLabel. now rewrite toLowerCase_idem.
Qed.

Lemma commonWords_short label :
  Js.includes commonWords label = true -> String.length label <= 3.
Proof. apply includes_length. unfold commonWords. repeat constructor. Qed.

Lemma genericWords_short label :
  Js.testWordsIgnoreCase genericWords label = true -> String.length label <= 5.
Proof.
  unfold Js.testWordsIgnoreCase. intros H.
  apply List.existsb_exists in H as (word & Hin & Heq).
  apply eqb_length in Heq. rewrite mapChars_length in Heq. rewrite Heq.
  unfold genericWords in Hin. cbn [In] in Hin.
  repeat (destruct Hin as [<- | Hin]; [cbn; lia|]). contradiction.
Qed.

(** Under an extension that is neither com nor org, the answer depends on
    the length of the label alone. *)
Lemma check_by_length (label ext : string) :
  Js.forallChars isLabelChar label = true ->
  Js.forallChars isLabelChar ext = true ->
  ext <> "com" -> ext <> "org" ->
  checkDomainAvailability (label +:+ "." +:+ ext)
  = if (String.length label <=? 4)%nat then taken
    else if Js.includes newerExtensions ext then available
    else if Js.includes conservativeExtensions ext then
      if (String.length label <=? 5)%nat then taken else available
    else available.
Proof.
  intros Hlabel Hext Hcom Horg. rewrite (check_label_extension _ _ Hlabel Hext).
  destruct (Js.includes definitelyTaken _) eqn:Hknown.
  { destruct (definitelyTaken_extension _ _ Hlabel Hext Hknown) as [-> | [-> _]];
      congruence. }
  destruct (String.length label <=? 4)%nat eqn:Hshort; [reflexivity|].
  apply Nat.leb_gt in Hshort.
  destruct (Js.includes commonWords label) eqn:Hcommon.
  { apply commonWords_short in Hcommon. lia. }
  destruct (String.eqb_spec ext "com"); [congruence | reflexivity].
Qed.

Lemma probe_by_length (label : string) :
  checkMultipleDomains label !! ".com"
  = Some (if (labelLength label <=? 6)%nat
             || Js.includes definitelyTaken (domainLabel label +:+ ".com")
          then taken else available)
  /\ checkMultipleDomains label !! ".net"
     = Some (if (labelLength label <=? 5)%nat then taken else available)
  /\ checkMultipleDomains label !! ".org"
     = Some (if (labelLength label <=? 5)%nat || String.eqb (domainLabel label) "wikipedia"
             then taken else available)
  /\ Forall (fun ext => checkMultipleDomains label !! ext
                        = Some (if (labelLength label <=? 4)%nat then taken else available))
            [ ".io"; ".co"; ".app"; ".dev"; ".tech"; ".ai"; ".me" ].
Proof.
  unfold labelLength. pose proof (domainLabel_chars label) as Hlabel.
  assert (Hmore : forall n m, n <= m -> (String.length (domainLabel label) <=? n)%nat = true ->
                              (String.length (domainLabel label) <=? m)%nat = true).
  { intros n m Hnm H. apply Nat.leb_le. apply Nat.leb_le in H. lia. }
  split; [|split; [|split]].
  - rewrite probe_lookup. change (Js.includes extensions ".com") with true. cbn iota.
    f_equal. change ((domainLabel label) +:+ ".com") with ((domainLabel label) +:+ "." +:+ "com").
    rewrite (check_label_extension (domainLabel label) "com" Hlabel eq_refl).
    destruct (Js.includes definitelyTaken _); [now rewrite orb_true_r|].
    rewrite orb_false_r.
    destruct (String.length (domainLabel label) <=? 4)%nat eqn:H4; [rewrite (Hmore 4 6) by (lia || assumption); reflexivity|].
    destruct (Js.includes commonWords (domainLabel label)) eqn:Hcommon.
    { apply commonWords_short in Hcommon. apply Nat.leb_gt in H4. lia. }
    change (String.eqb "com" "com") with true. cbn iota.
    destruct (String.length (domainLabel label) <=? 6)%nat eqn:H6; [reflexivity|].
    destruct (Js.testWordsIgnoreCase genericWords (domainLabel label)) eqn:Hgeneric; [|reflexivity].
    apply genericWords_short in Hgeneric. apply Nat.leb_gt in H6. lia.
  - rewrite probe_lookup. change (Js.includes extensions ".net") with true. cbn iota.
    f_equal. change ((domainLabel label) +:+ ".net") with ((domainLabel label) +:+ "." +:+ "net").
    rewrite (check_by_length (domainLabel label) "net" Hlabel eq_refl) by discriminate.
    change (Js.includes newerExtensions "net") with false.
    change (Js.includes conservativeExtensions "net") with true. cbn iota.
    destruct (String.length (domainLabel label) <=? 4)%nat eqn:H4; [rewrite (Hmore 4 5) by (lia || assumption); reflexivity|reflexivity].
  - rewrite probe_lookup. change (Js.includes extensions ".org") with true. cbn iota.
    f_equal. change ((domainLabel label) +:+ ".org") with ((domainLabel label) +:+ "." +:+ "org").
    rewrite (check_label_extension (domainLabel label) "org" Hlabel eq_refl).
    destruct (String.eqb_spec (domainLabel label) "wikipedia") as [-> | Hother].
    { now rewrite orb_true_r. }
    rewrite orb_false_r.
    destruct (Js.includes definitelyTaken _) eqn:Hknown.
    { destruct (definitelyTaken_extension (domainLabel label) "org" Hlabel eq_refl Hknown)
        as [[=] | [_ Hwiki]].
      congruence. }
    destruct (String.length (domainLabel label) <=? 4)%nat eqn:H4; [rewrite (Hmore 4 5) by (lia || assumption); reflexivity|].
    destruct (Js.includes commonWords (domainLabel label)) eqn:Hcommon.
    { apply commonWords_short in Hcommon. apply Nat.leb_gt in H4. lia. }
    reflexivity.
  - repeat constructor;
      rewrite probe_lookup;
      match goal with
      | |- context [Js.includes extensions ?e] =>
          change (Js.includes extensions e) with true
      end; cbn iota; f_equal.
    + change ((domainLabel label) +:+ ".io") with ((domainLabel label) +:+ "." +:+ "io").
      now rewrite (check_by_length (domainLabel label) "io" Hlabel eq_refl) by discriminate.
    + change ((domainLabel label) +:+ ".co") with ((domainLabel label) +:+ "." +:+ "co").
      now rewrite (check_by_length (domainLabel label) "co" Hlabel eq_refl) by discriminate.
    + change ((domainLabel label) +:+ ".app") with ((domainLabel label) +:+ "." +:+ "app").
      now rewrite (check_by_length (domainLabel label) "app" Hlabel eq_refl) by discriminate.
    + change ((domainLabel label) +:+ ".dev") with ((domainLabel label) +:+ "." +:+ "dev").
      now rewrite (check_by_length (domainLabel label) "dev" Hlabel eq_refl) by discriminate.
    + change ((domainLabel label) +:+ ".tech") with ((domainLabel label) +:+ "." +:+ "tech").
      now rewrite (check_by_length (domainLabel label) "tech" Hlabel eq_refl) by discriminate.
    + change ((domainLabel label) +:+ ".ai") with ((domainLabel label) +:+ "." +:+ "ai").
      now rewrite (check_by_length (domainLabel label) "ai" Hlabel eq_refl) by discriminate.
    + change ((domainLabel label) +:+ ".me") with ((domainLabel label) +:+ "." +:+ "me").
      now rewrite (check_by_length (domainLabel label) "me" Hlabel eq_refl) by discriminate.
Qed.

(** The ten answers of the prober, by the length of the normalised name:
    .com is taken up to 6 characters and for the well-known names; .net up
    to 5; .org up to 5 and for wikipedia; each of the seven newer
    extensions up to 4; anything longer is available. *)
Theorem checkMultipleDomains_by_length (label : string) :
  checkMultipleDomains label !! ".com"
  = Some (if (labelLength label <=? 6)%nat
             || Js.includes definitelyTaken (domainLabel label +:+ ".com")
          then taken else available)
  /\ checkMultipleDomains label !! ".net"
     = Some (if (labelLength label <=? 5)%nat then taken else available)
  /\ checkMultipleDomains label !! ".org"
     = Some (if (labelLength label <=? 5)%nat || String.eqb (domainLabel label) "wikipedia"
             then taken else available)
  /\ Forall (fun ext => checkMultipleDomains label !! ext
                        = Some (if (labelLength label <=? 4)%nat then taken else available))
            [ ".io"; ".co"; ".app"; ".dev"; ".tech"; ".ai"; ".me" ].
Proof. exact (probe_by_length label). Qed.

(** When the prober finds .com available, it finds .net and the seven
    newer extensions available too, and .org as well unless the
    normalised name is wikipedia. *)
Theorem com_available_implies_others (label : string) :
  checkMultipleDomains label !! ".com" = Some available ->
  Forall (fun ext => checkMultipleDomains label !! ext = Some available)
         [ ".net"; ".io"; ".co"; ".app"; ".dev"; ".tech"; ".ai"; ".me" ]
  /\ (domainLabel label <> "wikipedia" ->
      checkMultipleDomains label !! ".org" = Some available).
Proof.
  destruct (probe_by_length label) as (Hcom & Hnet & Horg & Hnewer).
  rewrite Hcom. intros [= Havailable].
  destruct (labelLength label <=? 6)%nat eqn:H6; [discriminate Havailable|].
  apply Nat.leb_gt in H6.
  assert (H5 : (labelLength label <=? 5)%nat = false) by (apply Nat.leb_gt; lia).
  assert (H4 : (labelLength label <=? 4)%nat = false) by (apply Nat.leb_gt; lia).
  rewrite H5 in Hnet, Horg. rewrite H4 in Hnewer. split.
  - constructor; [exact Hnet | exact Hnewer].
  - intros Hother. rewrite Horg.
    now replace (String.eqb (domainLabel label) "wikipedia") with false
      by (symmetry; now apply String.eqb_neq).
Qed.

Lemma com_available_implies_others_witness :
  Forall (fun ext => checkMultipleDomains "Cloud Flow" !! ext = Some available)
         [ ".net"; ".io"; ".co"; ".app"; ".dev"; ".tech"; ".ai"; ".me" ]
  /\ (domainLabel "Cloud Flow" <> "wikipedia" ->
      checkMultipleDomains "Cloud Flow" !! ".org" = Some available).
Proof.
  apply (com_available_implies_others "Cloud Flow"). vm_compute. reflexivity.
Defined.

(** ** Sanitizer and orchestrator *)

Lemma dropLeading_forall q p s :
  Js.forallChars q s = true -> Js.forallChars q (Js.dropLeading p s) = true.
Proof.
  induction s as [|c s IH]; cbn [Js.dropLeading]; [trivial|].
  intros H. destruct (p c); [|exact H].
  cbn [Js.forallChars] in H. apply andb_true_iff in H as [_ Hs]. auto.
Qed.

Lemma dropTrailing_forall q p s :
  Js.forallChars q s = true -> Js.forallChars q (Js.dropTrailing p s) = true.
Proof.
  induction s as [|c s IH]; cbn [Js.dropTrailing Js.forallChars]; [trivial|].
  intros [Hc Hs]%andb_true_iff. specialize (IH Hs).
  destruct (Js.dropTrailing p s) as [|d r].
  - destruct (p c); cbn [Js.forallChars]; [reflexivity | now rewrite Hc].
  - cbn [Js.forallChars] in *. now rewrite Hc, IH.
Qed.

Lemma trim_forall q s : Js.forallChars q s = true -> Js.forallChars q (Js.trim s) = true.
Proof. intros H. unfold Js.trim. now apply dropTrailing_forall, dropLeading_forall. Qed.

Lemma head_split_forall q sep s :
  Js.forallChars q s = true ->
  Js.forallChars q (default "" (head (Js.split sep s))) = true.
Proof.
  induction s as [|c s IH]; cbn [Js.split Js.forallChars]; [trivial|].
  intros [Hc Hs]%andb_true_iff. specialize (IH Hs).
  destruct (Ascii.eqb c sep); [reflexivity|].
  destruct (Js.split sep s) as [|piece rest]; cbn in *; now rewrite Hc, ?IH.
Qed.

(** The first piece of a split holds no separator. *)
Lemma head_split_free sep s :
  Js.forallChars (fun c => negb (Ascii.eqb c sep)) (default "" (head (Js.split sep s))) = true.
Proof.
  induction s as [|c s IH]; cbn [Js.split]; [reflexivity|].
  destruct (Ascii.eqb c sep) eqn:Hc; [reflexivity|].
  destruct (Js.split sep s) as [|piece rest]; cbn in *; now rewrite Hc, ?IH.
Qed.

Lemma dropLeading_length p s : String.length (Js.dropLeading p s) <= String.length s.
Proof.
  induction s as [|c s IH]; cbn [Js.dropLeading]; [lia|].
  destruct (p c); cbn [String.length]; lia.
Qed.

Lemma dropTrailing_length p s : String.length (Js.dropTrailing p s) <= String.length s.
Proof.
  induction s as [|c s IH]; cbn [Js.dropTrailing]; [lia|].
  destruct (Js.dropTrailing p s) as [|d r]; [destruct (p c)|]; cbn [String.length] in *; lia.
Qed.

Lemma trim_length s : String.length (Js.trim s) <= String.length s.
Proof.
  unfold Js.trim. pose proof (dropTrailing_length Js.isSpace (Js.dropLeading Js.isSpace s)).
  pose proof (dropLeading_length Js.isSpace s). lia.
Qed.

Lemma head_split_length sep s :
  String.length (default "" (head (Js.split sep s))) <= String.length s.
Proof.
  induction s as [|c s IH]; cbn [Js.split]; [cbn; lia|].
  destruct (Ascii.eqb c sep); [cbn; lia|].
  destruct (Js.split sep s) as [|piece rest]; cbn in *; lia.
Qed.

(** Empty, or beginning with a letter. *)
Lemma dropLeading_notLetter_head s :
  Js.dropLeading notLetter s = "" \/ startsWithLetter (Js.dropLeading notLetter s) = true.
Proof.
  induction s as [|c s IH]; cbn [Js.dropLeading]; [now left|].
  destruct (notLetter c) eqn:Hc; [exact IH|].
  right. cbn. unfold notLetter in Hc. now apply negb_false_iff in Hc.
Qed.

Lemma dropTrailing_keeps_head p c s :
  p c = false -> Js.dropTrailing p (String c s) = String c (Js.dropTrailing p s).
Proof. intros Hc. cbn [Js.dropTrailing]. rewrite Hc. now destruct (Js.dropTrailing p s). Qed.

Lemma head_split_keeps_head sep c s :
  Ascii.eqb c sep = false ->
  default "" (head (Js.split sep (String c s)))
  = String c (default "" (head (Js.split sep s))).
Proof.
  intros Hc. cbn [Js.split]. rewrite Hc.
  pose proof (split_nonempty sep s). now destruct (Js.split sep s).
Qed.

Lemma cleanLine_head (nameText : string) :
  cleanLine nameText = "" \/ startsWithLetter (cleanLine nameText) = true.
Proof.
  unfold cleanLine, Js.trim, Js.first.
  destruct (dropLeading_notLetter_head nameText) as [-> | Hhead]; [now left|].
  destruct (Js.dropLeading notLetter nameText) as [|c rest]; [discriminate Hhead|].
  cbn [startsWithLetter] in Hhead.
  destruct (letter_kept c Hhead) as (_ & Htail & Hspace & Hlf & Hdot).
  apply negb_true_iff in Htail, Hspace, Hlf, Hdot.
  rewrite (dropTrailing_keeps_head notNameTail c rest Htail).
  cbn [Js.dropLeading]. rewrite Hspace.
  rewrite (dropTrailing_keeps_head Js.isSpace c _ Hspace).
  rewrite (head_split_keeps_head Js.LF c _ Hlf).
  rewrite (head_split_keeps_head "." c _ Hdot).
  cbn [Js.dropLeading]. rewrite Hspace.
  rewrite (dropTrailing_keeps_head Js.isSpace c _ Hspace).
  right. exact Hhead.
Qed.

Lemma cleanLine_free (nameText : string) :
  Js.forallChars (fun c => negb (Ascii.eqb c ".") && negb (Ascii.eqb c Js.LF))
                 (cleanLine nameText) = true.
Proof.
  unfold cleanLine, Js.first. apply trim_forall.
  set (firstLine := default "" (head (Js.split Js.LF _))).
  assert (Hlf : Js.forallChars (fun c => negb (Ascii.eqb c Js.LF)) firstLine = true)
    by apply head_split_free.
  pose proof (head_split_free "." firstLine) as Hdot.
  pose proof (head_split_forall _ "." firstLine Hlf) as Hlf'.
  revert Hdot Hlf'. generalize (default "" (head (Js.split "." firstLine))).
  intros s. induction s as [|c s IH]; cbn [Js.forallChars]; [trivial|].
  intros [Hc Hs]%andb_true_iff [Hc' Hs']%andb_true_iff.
  now rewrite Hc, Hc', (IH Hs Hs').
Qed.

Lemma cleanLine_length (nameText : string) :
  String.length (cleanLine nameText) <= String.length nameText.
Proof.
  unfold cleanLine, Js.first.
  etransitivity; [apply trim_length|].
  etransitivity; [apply head_split_length|].
  etransitivity; [apply head_split_length|].
  etransitivity; [apply trim_length|].
  etransitivity; [apply dropTrailing_length|].
  apply dropLeading_length.
Qed.

(** The cleaned text of any line is empty or begins with a letter, holds
    no period and no line break, and is no longer than the line. *)
Theorem cleanLine_shape (nameText : string) :
  (cleanLine nameText = "" \/ startsWithLetter (cleanLine nameText) = true)
  /\ Js.forallChars (fun c => negb (Ascii.eqb c ".") && negb (Ascii.eqb c Js.LF))
                    (cleanLine nameText) = true
  /\ String.length (cleanLine nameText) <= String.length nameText.
Proof.
  split; [apply cleanLine_head|]. split; [apply cleanLine_free | apply cleanLine_length].
Qed.

Lemma rejected_bounds (cleanName : string) :
  (rejectedPrimary cleanName = false -> 2 <= String.length cleanName <= 30)
  /\ (rejectedFallback cleanName = false -> 2 <= String.length cleanName <= 30).
Proof.
  unfold rejectedPrimary, rejectedFallback.
  rewrite !orb_false_iff, !Nat.ltb_ge. intuition lia.
Qed.

Lemma buildCandidates_fresh env rejected idSuffix categoryName names acc w out w' :
  (forall cleanName, rejected cleanName = false -> 2 <= String.length cleanName <= 30) ->
  buildCandidates env rejected idSuffix categoryName names acc w = (Returns out, w') ->
  Forall (freshCandidate categoryName) acc ->
  Forall (freshCandidate categoryName) out.
Proof.
  intros Hbound. revert acc w. induction names as [|nameText rest IH]; intros acc w.
  - cbn. now intros [= <- _].
  - cbn [buildCandidates].
    destruct (rejected (cleanLine nameText)) eqn:Hrej; [apply IH|].
    unfold bind, nextIndex. intros Hrun Hacc. eapply IH; [exact Hrun|].
    apply Forall_app. split; [exact Hacc|]. constructor; [|constructor].
    unfold freshCandidate. cbn [name category isFavorite rating ratingComment domains].
    pose proof (Hbound _ Hrej) as Hlen.
    destruct (cleanLine_head nameText) as [Hempty | Hletter].
    { rewrite Hempty in Hlen. cbn in Hlen. lia. }
    repeat split; try reflexivity; try lia; [exact Hletter | apply cleanLine_free].
Qed.

Lemma nameLines_length response : length (nameLines response) <= 5.
Proof. unfold nameLines. rewrite length_take. lia. Qed.

Lemma survivors_length rejected names : length (survivors rejected names) <= length names.
Proof.
  unfold survivors.
  etransitivity; [apply List.filter_length_le|]. now rewrite List.length_map.
Qed.

(** What a generation call does to the state, whatever the service
    answers. *)
Lemma generateName_batch env ui prev w :
  exists st note,
    fst (generateName env ui prev w) = Returns (st, note)
    /\ ((st = prev /\ note = failedToast)
        \/ exists batch,
             st = mergeHistory batch prev
             /\ note = generatedToast (length batch)
             /\ Forall (freshCandidate (categoryNameOf (selectedCategory ui))) batch
             /\ length batch <= 7).
Proof.
  unfold generateName, tryCatch, generateNameBody, bind, generateNameWithCohere,
    primaryLoop, fallbackLoop.
  destruct (cohere env (primaryPrompt ui)) as [|text].
  { do 2 eexists. split; [reflexivity | now left]. }
  fold (responseText text).
  loop_facts Hloop. destruct Hloop as (batch & Hrun & Hnames).
  pose proof (buildCandidates_fresh _ _ _ _ _ _ _ _ _
                (fun c => proj1 (rejected_bounds c)) Hrun (List.Forall_nil _)) as Hfresh.
  cbn [List.map app] in Hnames.
  pose proof (survivors_length_map name batch [] _ Hnames) as Hl.
  cbn [length List.map Nat.add] in Hl.
  pose proof (survivors_length rejectedPrimary (nameLines (responseText text))) as Hs.
  pose proof (nameLines_length (responseText text)) as Hn.
  rewrite Hrun.
  destruct (length batch <? 3)%nat eqn:Hfew.
  - apply Nat.ltb_lt in Hfew.
    destruct (cohere env (fallbackPromptFor (categoryNameOf (selectedCategory ui))))
      as [|text'].
    { do 2 eexists. split; [reflexivity | now left]. }
    fold (responseText text').
    loop_facts Hloop. destruct Hloop as (all & Hrun' & Hnames').
    pose proof (buildCandidates_fresh _ _ _ _ _ _ _ _ _
                  (fun c => proj2 (rejected_bounds c)) Hrun' Hfresh) as Hfresh'.
    pose proof (survivors_length_map name all batch _ Hnames') as Hl'.
    pose proof (survivors_length rejectedFallback (nameLines (responseText text'))) as Hs'.
    pose proof (nameLines_length (responseText text')) as Hn'.
    rewrite Hrun'. do 2 eexists. split; [reflexivity|]. right.
    exists all. repeat split; [exact Hfresh' | lia].
  - do 2 eexists. split; [reflexivity|]. right.
    exists batch. repeat split; [exact Hfresh | lia].
Qed.

(** Every candidate a generation call adds has a name of 2 to 30
    characters that begins with a letter and holds no period or line
    break, the category of the call, no favorite flag, no rating, and the
    prober's ten answers for its name; a call adds at most 7 of them. *)
Theorem generateName_adds_fresh_candidates env ui prev w st note :
  fst (generateName env ui prev w) = Returns (st, note) ->
  note <> failedToast ->
  exists batch,
    generatedNames st = take 20 (batch ++ generatedNames prev)%list
    /\ note = generatedToast (length batch)
    /\ length batch <= 7
    /\ Forall (freshCandidate (categoryNameOf (selectedCategory ui))) batch.
Proof.
  intros Hrun Hnote.
  destruct (generateName_batch env ui prev w) as (st' & note' & Hrun' & Hcases).
  rewrite Hrun in Hrun'. injection Hrun' as <- <-.
  destruct Hcases as [[_ Hfail] | (batch & -> & Hmsg & Hfresh & Hlen)]; [contradiction|].
  exists batch. auto.
Qed.

Lemma generateName_adds_fresh_candidates_witness :
  exists batch,
    length batch <= 7
    /\ Forall (freshCandidate "Technology") batch
    /\ List.map name batch = [ "CloudFlow"; "DataSync"; "Business" ].
Proof.
  destruct (fst (generateName
                   (scriptedEnv (Payload (Some ("CloudFlow" +:+ newline +:+ "DataSync")))
                                (Payload (Some "Business")))
                   defaultControls emptyState startWorld))
    as [[st note]|e] eqn:Hrun; [|vm_compute in Hrun; discriminate Hrun].
  assert (Hnote : note <> failedToast).
  { intros ->. vm_compute in Hrun. discriminate Hrun. }
  destruct (generateName_adds_fresh_candidates _ _ _ _ _ _ Hrun Hnote)
    as (batch & Hst & _ & Hlen & Hfresh).
  exists batch. split; [exact Hlen|]. split; [exact Hfresh|].
  assert (Hshort : take 20 (batch ++ generatedNames emptyState)%list = batch).
  { cbn [emptyState generatedNames]. rewrite app_nil_r. apply take_ge. lia. }
  rewrite Hshort in Hst. rewrite <- Hst.
  vm_compute in Hrun. injection Hrun as <- _. reflexivity.
Defined.

(** A generation call never throws, and it changes nothing but the active
    collection: favorites, archive and theme are as before; on a failure
    the active collection too is as before, and after a success it holds
    at most 20 candidates. *)
Theorem generateName_frame env ui prev w :
  exists st note,
    fst (generateName env ui prev w) = Returns (st, note)
    /\ favorites st = favorites prev
    /\ archivedNames st = archivedNames prev
    /\ darkMode st = darkMode prev
    /\ (note = failedToast -> st = prev)
    /\ (note <> failedToast -> length (generatedNames st) <= 20).
Proof.
  destruct (generateName_batch env ui prev w) as (st & note & Hrun & Hcases).
  exists st, note. split; [exact Hrun|].
  destruct Hcases as [[-> ->] | (batch & -> & -> & _)].
  - repeat split; congruence.
  - cbn [mergeHistory favorites archivedNames darkMode generatedNames].
    repeat split.
    + intros Heq. discriminate Heq.
    + intros _. rewrite length_take. lia.
Qed.

(** ** Lifecycle operations *)

Lemma setFavorite_same item : setFavorite (isFavorite item) item = item.
Proof. now destruct item. Qed.

Lemma toggle_item_twice nameId item :
  (let toggle := fun it => if String.eqb (id it) nameId
                           then setFavorite (negb (isFavorite it)) it else it in
   toggle (toggle item)) = item.
Proof.
  cbn zeta. destruct item as [i n c t f r rc d]. unfold setFavorite.
  cbn [id isFavorite name category timestamp rating ratingComment domains].
  destruct (String.eqb i nameId) eqn:Hid;
    cbn [id isFavorite name category timestamp rating ratingComment domains];
    rewrite Hid; [now rewrite negb_involutive | reflexivity].
Qed.

(** Toggling the same id twice gives back the active collection, and
    leaves [favorites] equal to the index derived from the flags; on a
    state whose index was the derived one, the two toggles cancel. *)
Theorem toggleFavorite_twice (nameId : string) (st : AppState) :
  generatedNames (toggleFavorite nameId (toggleFavorite nameId st)) = generatedNames st
  /\ favorites (toggleFavorite nameId (toggleFavorite nameId st)) = favoriteIds st
  /\ (favoritesDerived st -> toggleFavorite nameId (toggleFavorite nameId st) = st).
Proof.
  assert (Hnames : generatedNames (toggleFavorite nameId (toggleFavorite nameId st))
                   = generatedNames st).
  { cbn [toggleFavorite generatedNames]. rewrite List.map_map.
    rewrite <- (List.map_id (generatedNames st)) at 2.
    apply List.map_ext. intros item. apply (toggle_item_twice nameId item). }
  assert (Hfav : favorites (toggleFavorite nameId (toggleFavorite nameId st)) = favoriteIds st).
  { change (favorites (toggleFavorite nameId (toggleFavorite nameId st)))
      with (List.map id (List.filter isFavorite
              (generatedNames (toggleFavorite nameId (toggleFavorite nameId st))))).
    now rewrite Hnames. }
  split; [exact Hnames|]. split; [exact Hfav|].
  intros Hderived. red in Hderived.
  destruct st as [names favs archived dark].
  cbn [generatedNames favorites] in *.
  unfold toggleFavorite at 1. cbn [archivedNames darkMode toggleFavorite].
  f_equal.
  - exact Hnames.
  - rewrite Hderived. exact Hfav.
Qed.

Lemma toggleFavorite_twice_witness :
  toggleFavorite "1" (toggleFavorite "1" oneFavorite) = oneFavorite.
Proof.
  apply (proj2 (proj2 (toggleFavorite_twice "1" oneFavorite))). reflexivity.
Defined.

(** What a toggle does to the index: afterwards the toggled id is listed
    exactly when an active candidate of that id was not flagged before,
    and any other id is listed exactly when an active candidate of that
    id is flagged; ids, order and archive are untouched. *)
Theorem toggleFavorite_index (nameId other : string) (st : AppState) :
  (In nameId (favorites (toggleFavorite nameId st))
   <-> exists item, In item (generatedNames st) /\ id item = nameId /\ isFavorite item = false)
  /\ (other <> nameId ->
      (In other (favorites (toggleFavorite nameId st)) <-> In other (favoriteIds st)))
  /\ activeIds (toggleFavorite nameId st) = activeIds st
  /\ archivedNames (toggleFavorite nameId st) = archivedNames st.
Proof.
  assert (Hin : forall wanted,
             In wanted (favorites (toggleFavorite nameId st))
             <-> exists item, In item (generatedNames st) /\ id item = wanted
                              /\ isFavorite item
                                 = (if String.eqb wanted nameId then false else true)).
  { intros wanted. cbn [toggleFavorite favorites].
    rewrite List.in_map_iff. split.
    - intros (item' & Hid & Hfilter). apply List.filter_In in Hfilter as [Hmap Hflag].
      apply List.in_map_iff in Hmap as (item & Hitem & Hsrc).
      exists item. split; [exact Hsrc|].
      destruct (String.eqb_spec (id item) nameId) as [Heq | Hne]; subst item'.
      + cbn [setFavorite id isFavorite] in *. subst wanted.
        rewrite Heq, String.eqb_refl. split; [reflexivity|].
        now apply negb_true_iff in Hflag.
      + subst wanted. split; [reflexivity|].
        destruct (String.eqb_spec (id item) nameId); [contradiction | exact Hflag].
    - intros (item & Hsrc & Hid & Hflag).
      exists (if String.eqb (id item) nameId
              then setFavorite (negb (isFavorite item)) item else item).
      split.
      + now destruct (String.eqb (id item) nameId).
      + apply List.filter_In. split.
        * apply List.in_map_iff. now exists item.
        * subst wanted. destruct (String.eqb (id item) nameId); [|exact Hflag].
          cbn [setFavorite isFavorite]. now rewrite Hflag. }
  split; [|split; [|split]].
  - rewrite Hin. rewrite String.eqb_refl. reflexivity.
  - intros Hother. rewrite Hin.
    replace (String.eqb other nameId) with false
      by (symmetry; now apply String.eqb_neq).
    unfold favoriteIds. rewrite List.in_map_iff. split.
    + intros (item & Hsrc & Hid & Hflag). exists item. split; [exact Hid|].
      apply List.filter_In. now split.
    + intros (item & Hid & Hfilter). apply List.filter_In in Hfilter as [Hsrc Hflag].
      now exists item.
  - unfold activeIds. cbn [toggleFavorite generatedNames]. rewrite List.map_map.
    apply List.map_ext. intros item. now destruct (String.eqb (id item) nameId).
  - reflexivity.
Qed.

Lemma toggleFavorite_index_witness :
  In "2" (favorites (toggleFavorite "1" oneFavorite)) <-> In "2" (favoriteIds oneFavorite).
Proof.
  apply (proj1 (proj2 (toggleFavorite_index "1" "2" oneFavorite))). discriminate.
Defined.

(** Every entry is a candidate whose id differs from [nameId]. *)
Lemma findArchived_append nameId archived item :
  Forall (fun entry => exists it, entry = Some it /\ id it <> nameId) archived ->
  id item = nameId ->
  findArchived nameId (archived ++ [Some item]) = Returns (Some item)
  /\ withoutArchived nameId (archived ++ [Some item]) = Returns archived.
Proof.
  intros Hall Hid. induction Hall as [|entry rest (it & -> & Hne) _ [IHfind IHfilter]].
  - cbn. apply String.eqb_eq in Hid. now rewrite Hid.
  - cbn [app findArchived withoutArchived]. rewrite IHfilter.
    apply String.eqb_neq in Hne. now rewrite Hne.
Qed.

Lemma find_some_id nameId (items : list GeneratedName) item :
  List.find (fun n => String.eqb (id n) nameId) items = Some item -> id item = nameId.
Proof. intros H. apply List.find_some in H as [_ H]. now apply String.eqb_eq. Qed.

(** Archiving an active candidate and restoring it gives back the archive
    as it was, and moves the candidate to the end of the active
    collection: provided the archive holds only candidates, none of them
    with that id. *)
Theorem archive_then_restore (nameId : string) (st : AppState) (item : GeneratedName) :
  List.find (fun n => String.eqb (id n) nameId) (generatedNames st) = Some item ->
  Forall (fun entry => exists it, entry = Some it /\ id it <> nameId) (archivedNames st) ->
  restoreName nameId (archiveName nameId st)
  = Returns {| generatedNames :=
                 List.filter (fun it => negb (String.eqb (id it) nameId)) (generatedNames st)
                 ++ [item];
               favorites := favorites st;
               archivedNames := archivedNames st;
               darkMode := darkMode st |}.
Proof.
  intros Hfind Hall. unfold restoreName.
  cbn [archiveName archivedNames generatedNames favorites darkMode].
  rewrite Hfind.
  destruct (findArchived_append nameId _ item Hall (find_some_id _ _ _ Hfind)) as [-> ->].
  reflexivity.
Qed.

Lemma archive_then_restore_witness :
  restoreName "1" (archiveName "1" oneFavorite) = Returns oneFavorite.
Proof.
  apply (archive_then_restore "1" oneFavorite (sampleCandidate "1" "CloudFlow" true)).
  - reflexivity.
  - constructor.
Defined.

Lemma filter_split_length {A} (p : A -> bool) (l : list A) :
  length (List.filter p l) + length (List.filter (fun x => negb (p x)) l) = length l.
Proof.
  induction l as [|x l IH]; [reflexivity|].
  cbn [List.filter]. destruct (p x); cbn [negb length]; lia.
Qed.

(** Archiving removes every active candidate of the id and appends one
    entry to the archive, so the number of entries held is conserved
    exactly when the id names one active candidate. *)
Theorem archiveName_accounting (nameId : string) (st : AppState) :
  length (generatedNames (archiveName nameId st)) + occurrences nameId (generatedNames st)
  = length (generatedNames st)
  /\ length (archivedNames (archiveName nameId st)) = S (length (archivedNames st))
  /\ (length (generatedNames (archiveName nameId st))
      + length (archivedNames (archiveName nameId st))
      = length (generatedNames st) + length (archivedNames st)
      <-> occurrences nameId (generatedNames st) = 1).
Proof.
  cbn [archiveName generatedNames archivedNames]. unfold occurrences.
  pose proof (filter_split_length (fun it => String.eqb (id it) nameId) (generatedNames st)).
  rewrite length_app. cbn [length]. repeat split; lia.
Qed.

(** An [undefined] entry anywhere in the archive makes these calls throw. *)
Lemma findArchived_undefined nameId archived :
  In None archived ->
  findArchived nameId archived = Throws TypeError
  \/ (exists item, findArchived nameId archived = Returns (Some item)).
Proof.
  induction archived as [|[item|] rest IH]; [intros [] | |now left].
  intros [Habs | Hin]; [discriminate Habs|]. cbn [findArchived].
  destruct (String.eqb (id item) nameId); [right; now exists item | now apply IH].
Qed.

Lemma withoutArchived_undefined nameId archived :
  In None archived -> withoutArchived nameId archived = Throws TypeError.
Proof.
  induction archived as [|[item|] rest IH]; [intros [] | |reflexivity].
  intros [Habs | Hin]; [discriminate Habs|]. cbn [withoutArchived]. now rewrite (IH Hin).
Qed.

Lemma mapArchived_undefined f archived :
  In None archived -> mapArchived f archived = Throws TypeError.
Proof.
  induction archived as [|[item|] rest IH]; [intros [] | |reflexivity].
  intros [Habs | Hin]; [discriminate Habs|]. cbn [mapArchived]. now rewrite (IH Hin).
Qed.

Lemma filterEntries_undefined p names :
  In None names -> filterEntries p names = Throws TypeError.
Proof.
  induction names as [|[item|] rest IH]; [intros [] | |reflexivity].
  intros [Habs | Hin]; [discriminate Habs|]. cbn [filterEntries]. now rewrite (IH Hin).
Qed.

(** Once an id that names no active candidate has been archived, the
    archive holds an [undefined] entry, and from then on restoring,
    rating, rechecking and filtering the archived view by length all throw,
    whatever their arguments; clearing the archive ends this. *)
Theorem archive_absent_then_throws (nameId other comment : string) (stars : Z)
    (bucket : NameLength) (st : AppState) :
  ~ In nameId (activeIds st) ->
  restoreName other (archiveName nameId st) = Throws TypeError
  /\ rateName other stars comment (archiveName nameId st) = Throws TypeError
  /\ recheckArchivedDomains (archiveName nameId st) = Throws TypeError
  /\ getFilteredNames {| viewMode := archivedView; nameLengthFilter := Some bucket;
                         availabilityFilter := None; ratingFilter := 0 |}
                      (archiveName nameId st) = Throws TypeError
  /\ restoreName other (clearArchived (archiveName nameId st))
     = Returns (clearArchived (archiveName nameId st)).
Proof.
  intros Habsent.
  destruct (find_absent nameId _ Habsent) as [Hfind _].
  assert (Hin : In None (archivedNames (archiveName nameId st))).
  { cbn [archiveName archivedNames]. rewrite Hfind. apply List.in_or_app. right. now left. }
  repeat split.
  - unfold restoreName.
    destruct (findArchived_undefined other _ Hin) as [-> | [item ->]]; [reflexivity|].
    now rewrite (withoutArchived_undefined other _ Hin).
  - unfold rateName. now rewrite (mapArchived_undefined _ _ Hin).
  - unfold recheckArchivedDomains. rewrite (mapArchived_undefined _ _ Hin).
    destruct (archivedNames (archiveName nameId st)); [destruct Hin | reflexivity].
  - unfold getFilteredNames. cbn [viewMode nameLengthFilter viewSource].
    now rewrite (filterEntries_undefined _ _ Hin).
Qed.

Lemma archive_absent_then_throws_witness :
  restoreName "1" (archiveName "2" oneFavorite) = Throws TypeError
  /\ rateName "1" 5 "great" (archiveName "2" oneFavorite) = Throws TypeError.
Proof.
  assert (Habsent : ~ In "2" (activeIds oneFavorite)).
  { cbn. intros [H | []]. discriminate H. }
  destruct (archive_absent_then_throws "2" "1" "great" 5 short oneFavorite Habsent)
    as (Hrestore & Hrate & _).
  split; [exact Hrestore | exact Hrate].
Defined.

Lemma mapArchived_wellFormed f archived :
  Forall (fun entry => is_Some entry) archived ->
  mapArchived f archived = Returns (List.map (fun entry => f <$> entry) archived).
Proof.
  induction 1 as [|entry rest [item ->] _ IH]; [reflexivity|].
  cbn [mapArchived List.map]. now rewrite IH.
Qed.

Lemma mapped_wellFormed (f : GeneratedName -> GeneratedName) archived :
  Forall (fun entry => is_Some entry) archived ->
  Forall (fun entry => is_Some entry) (List.map (fun entry => f <$> entry) archived).
Proof.
  induction 1 as [|entry rest [item ->] _ IH]; constructor; [now eexists | exact IH].
Qed.

Lemma favoriteIds_map (f : GeneratedName -> GeneratedName) items :
  (forall item, id (f item) = id item /\ isFavorite (f item) = isFavorite item) ->
  List.map id (List.filter isFavorite (List.map f items))
  = List.map id (List.filter isFavorite items).
Proof.
  intros Hf. induction items as [|item rest IH]; [reflexivity|].
  cbn [List.map List.filter]. destruct (Hf item) as [Hid Hflag]. rewrite Hflag.
  destruct (isFavorite item); cbn [List.map]; now rewrite ?Hid, IH.
Qed.

Lemma rate_item_facts nameId stars comment item :
  let rate := fun it => if String.eqb (id it) nameId
                        then setRating stars comment it else it in
  id (rate item) = id item
  /\ isFavorite (rate item) = isFavorite item
  /\ name (rate item) = name item
  /\ (id item = nameId -> rating (rate item) = stars /\ ratingComment (rate item) = comment)
  /\ (id item <> nameId -> rate item = item).
Proof.
  cbv beta zeta. destruct (String.eqb_spec (id item) nameId) as [Heq | Hne];
    cbn [setRating id isFavorite name rating ratingComment]; repeat split;
    intros; try reflexivity; contradiction.
Qed.

Lemma rate_item_overwrites nameId stars comment stars' comment' item :
  let rate := fun s c it => if String.eqb (id it) nameId then setRating s c it else it in
  rate stars' comment' (rate stars comment item) = rate stars' comment' item.
Proof.
  cbv beta zeta. destruct (String.eqb (id item) nameId) eqn:Hid.
  - cbn [setRating id]. now rewrite Hid.
  - now rewrite Hid.
Qed.

(** On an archive that holds only candidates, rating returns; it sets the
    rating and the comment of the candidates of that id, in both
    collections, and changes no id, no favorite flag and no index; and a
    later rating of the same id replaces the earlier one. *)
Theorem rateName_effect (nameId comment : string) (stars : Z) (prev : AppState) :
  archiveWellFormed prev ->
  exists st,
    rateName nameId stars comment prev = Returns st
    /\ archiveWellFormed st
    /\ activeIds st = activeIds prev
    /\ entryIds (archivedNames st) = entryIds (archivedNames prev)
    /\ favorites st = favorites prev
    /\ favoriteIds st = favoriteIds prev
    /\ Forall (fun item => id item = nameId ->
                           rating item = stars /\ ratingComment item = comment)
              (generatedNames st)
    /\ (forall stars' comment',
          rateName nameId stars' comment' st = rateName nameId stars' comment' prev).
Proof.
  intros Hwf. unfold rateName at 1. red in Hwf.
  rewrite (mapArchived_wellFormed _ _ Hwf).
  eexists. split; [reflexivity|].
  unfold archiveWellFormed, activeIds, favoriteIds, entryIds.
  cbn [generatedNames archivedNames favorites].
  split; [now apply mapped_wellFormed|].
  split.
  { rewrite List.map_map. apply List.map_ext. intros item.
    apply (rate_item_facts nameId stars comment item). }
  split.
  { rewrite List.map_map. apply List.map_ext. intros [item|]; [|reflexivity].
    cbn. f_equal. apply (rate_item_facts nameId stars comment item). }
  split; [reflexivity|].
  split.
  { apply favoriteIds_map. intros item.
    split; apply (rate_item_facts nameId stars comment item). }
  split.
  { apply Forall_forall. intros item' Hin. apply list_elem_of_In in Hin.
    apply List.in_map_iff in Hin as (item & <- & _).
    intros Hid. apply (rate_item_facts nameId stars comment item).
    now rewrite (proj1 (rate_item_facts nameId stars comment item)) in Hid. }
  intros stars' comment'. unfold rateName.
  cbn [generatedNames archivedNames favorites darkMode].
  rewrite (mapArchived_wellFormed _ _ (mapped_wellFormed _ _ Hwf)).
  rewrite (mapArchived_wellFormed _ _ Hwf).
  rewrite !List.map_map. do 2 f_equal.
  - apply List.map_ext. intros item.
    apply (rate_item_overwrites nameId stars comment stars' comment' item).
  - apply List.map_ext. intros [item|]; [|reflexivity]. cbn. f_equal.
    apply (rate_item_overwrites nameId stars comment stars' comment' item).
Qed.

Lemma rateName_effect_witness :
  exists st,
    rateName "1" 4 "solid" oneFavorite = Returns st
    /\ favoriteIds st = ["1"]
    /\ List.map rating (generatedNames st) = [4%Z].
Proof.
  destruct (rateName_effect "1" "solid" 4 oneFavorite)
    as (st & Hrun & _ & _ & _ & _ & Hfav & _); [constructor|].
  exists st. split; [exact Hrun|]. split; [exact Hfav|].
  vm_compute in Hrun. injection Hrun as <-. reflexivity.
Defined.

(** ** Filtering, counting and rechecking *)

Lemma filterEntries_wellFormed p names :
  Forall (fun entry => is_Some entry) names ->
  filterEntries p names = Returns (List.filter (entryPasses p) names).
Proof.
  induction 1 as [|entry rest [item ->] _ IH]; [reflexivity|].
  cbn [filterEntries List.filter entryPasses]. now rewrite IH.
Qed.

Lemma filter_wellFormed (q : option GeneratedName -> bool) names :
  Forall (fun entry => is_Some entry) names ->
  Forall (fun entry => is_Some entry) (List.filter q names).
Proof.
  induction 1 as [|entry rest Hsome _ IH]; [constructor|].
  cbn [List.filter]. destruct (q entry); [constructor; assumption | assumption].
Qed.

Lemma filter_filter {A} (p q : A -> bool) (l : list A) :
  List.filter q (List.filter p l) = List.filter (fun x => p x && q x) l.
Proof.
  induction l as [|x l IH]; [reflexivity|].
  cbn [List.filter]. destruct (p x); cbn [List.filter andb]; [|exact IH].
  destruct (q x); now rewrite IH.
Qed.

Lemma filter_all {A} (p : A -> bool) (l : list A) :
  (forall x, In x l -> p x = true) -> List.filter p l = l.
Proof.
  induction l as [|x l IH]; [reflexivity|]. intros Hall.
  cbn [List.filter]. rewrite (Hall x) by now left.
  f_equal. apply IH. intros y Hy. apply Hall. now right.
Qed.

Lemma viewSource_wellFormed mode st :
  (mode = archivedView -> archiveWellFormed st) ->
  Forall (fun entry => is_Some entry) (viewSource mode st).
Proof.
  intros Hwf. destruct mode; cbn [viewSource]; [| |now apply Hwf];
    apply Forall_forall; intros entry Hin; apply list_elem_of_In in Hin;
    apply List.in_map_iff in Hin as (item & <- & _); now eexists.
Qed.

(** A filter that is applied only when a choice is made. *)
Lemma optional_filter {A} (choice : option A) (test : A -> GeneratedName -> bool) names :
  Forall (fun entry => is_Some entry) names ->
  match choice with
  | Some chosen => filterEntries (test chosen) names
  | None => Returns names
  end
  = Returns (List.filter (entryPasses (match choice with
                                       | Some chosen => test chosen
                                       | None => fun _ => true
                                       end)) names).
Proof.
  intros Hwf. destruct choice as [chosen|]; [now apply filterEntries_wellFormed|].
  f_equal. symmetry. apply filter_all. intros entry Hin.
  rewrite Forall_forall in Hwf. apply list_elem_of_In, Hwf in Hin. now destruct Hin as [item ->].
Qed.

Lemma rating_filter (minimum : Z) names :
  Forall (fun entry => is_Some entry) names ->
  (if (0 <? minimum)%Z
   then filterEntries (fun item => (minimum <=? rating item)%Z) names
   else Returns names)
  = Returns (List.filter
               (entryPasses (fun item => (minimum <=? 0)%Z || (minimum <=? rating item)%Z))
               names).
Proof.
  intros Hwf. destruct (0 <? minimum)%Z eqn:Hrating.
  - rewrite (filterEntries_wellFormed _ _ Hwf). f_equal.
    apply List.filter_ext. intros [item|]; [|reflexivity]. cbn [entryPasses].
    apply Z.ltb_lt in Hrating.
    now replace (minimum <=? 0)%Z with false by (symmetry; apply Z.leb_gt; lia).
  - f_equal. symmetry. apply filter_all. intros entry Hin.
    rewrite Forall_forall in Hwf. apply list_elem_of_In, Hwf in Hin.
    destruct Hin as [item ->]. cbn [entryPasses].
    apply Z.ltb_ge in Hrating.
    now replace (minimum <=? 0)%Z with true by (symmetry; apply Z.leb_le; lia).
Qed.

(** The displayed list is the view's collection filtered once by the
    conjunction of the three tests, a rating filter of 0 or less testing
    nothing: this holds in the active and favorites views, and in the
    archived view when the archive holds only candidates.  With no filter
    chosen the view's collection is displayed as it is. *)
Theorem getFilteredNames_fused (controls : Filters) (st : AppState) :
  ((viewMode controls = archivedView -> archiveWellFormed st) ->
   getFilteredNames controls st
   = Returns (List.filter (entryPasses (passesFilters controls))
                          (viewSource (viewMode controls) st)))
  /\ getFilteredNames {| viewMode := viewMode controls; nameLengthFilter := None;
                         availabilityFilter := None; ratingFilter := 0 |} st
     = Returns (viewSource (viewMode controls) st).
Proof.
  split; [|reflexivity].
  intros Hwf. apply viewSource_wellFormed in Hwf.
  unfold getFilteredNames.
  rewrite (optional_filter _ _ _ Hwf). cbn iota.
  rewrite (optional_filter _ _ _ (filter_wellFormed _ _ Hwf)). cbn iota.
  rewrite (rating_filter _ _ (filter_wellFormed _ _ (filter_wellFormed _ _ Hwf))).
  f_equal. rewrite !filter_filter.
  apply List.filter_ext. intros [item|]; [|reflexivity].
  unfold passesFilters. cbn [entryPasses].
  destruct (nameLengthFilter controls), (availabilityFilter controls);
    now rewrite andb_assoc.
Qed.

Lemma getFilteredNames_fused_witness :
  getFilteredNames {| viewMode := favoritesView; nameLengthFilter := Some medium;
                      availabilityFilter := None; ratingFilter := 0 |} oneFavorite
  = Returns [Some (sampleCandidate "1" "CloudFlow" true)].
Proof.
  apply (proj1 (getFilteredNames_fused
                  {| viewMode := favoritesView; nameLengthFilter := Some medium;
                     availabilityFilter := None; ratingFilter := 0 |} oneFavorite)).
  discriminate.
Defined.

Lemma comStatus_probed item : probed item -> comStatus item <> unknown.
Proof.
  unfold probed, comStatus. intros ->. rewrite probe_lookup.
  change (Js.includes extensions ".com") with true. cbn.
  estimator_cases; discriminate.
Qed.

(** The two counters never exceed the number of active candidates, and
    add up to it when every active candidate carries the prober's
    answers. *)
Theorem counts_cover_probed (st : AppState) :
  availableCount st + takenCount st <= length (generatedNames st)
  /\ (Forall probed (generatedNames st) ->
      availableCount st + takenCount st = length (generatedNames st)).
Proof.
  unfold availableCount, takenCount.
  induction (generatedNames st) as [|item rest [IHle IHeq]]; [split; reflexivity|].
  cbn [List.filter length].
  split.
  - destruct (comStatus item); cbn [status_eqb length]; lia.
  - intros Hall. inversion Hall as [|? ? Hitem Hrest]; subst.
    specialize (IHeq Hrest). pose proof (comStatus_probed item Hitem).
    destruct (comStatus item); cbn [status_eqb length]; [lia | lia | contradiction].
Qed.

Lemma counts_cover_probed_witness :
  let st := {| generatedNames := [setDomains (checkMultipleDomains "CloudFlow")
                                             (sampleCandidate "1" "CloudFlow" false)];
               favorites := []; archivedNames := []; darkMode := false |} in
  availableCount st + takenCount st = 1.
Proof.
  intros st. apply (proj2 (counts_cover_probed st)).
  constructor; [reflexivity | constructor].
Defined.

Lemma setDomains_probed_idem item :
  setDomains (checkMultipleDomains (name (setDomains (checkMultipleDomains (name item)) item)))
             (setDomains (checkMultipleDomains (name item)) item)
  = setDomains (checkMultipleDomains (name item)) item.
Proof. reflexivity. Qed.




(** ** Registrar hand-off and single-domain check *)

Lemma label_no_terminator label :
  Js.forallChars isLabelChar label = true ->
  Js.forallChars (fun c => negb (isLineTerminator c)) label = true.
Proof. apply forallChars_impl. intros c Hc. apply (labelChar_facts c Hc). Qed.

Lemma domainLabel_of_label label :
  Js.forallChars isLabelChar label = true -> domainLabel label = label.
Proof.
  intros H. unfold domainLabel. rewrite (label_lowered _ H). now apply filterChars_all.
Qed.

(** A name that begins with a letter has a non-empty label. *)
Lemma startsWithLetter_label s :
  startsWithLetter s = true -> domainLabel s <> "".
Proof.
  destruct s as [|c s]; [discriminate|]. cbn [startsWithLetter]. intros Hc.
  unfold domainLabel, Js.toLowerCase. cbn [Js.mapChars Js.filterChars].
  assert (Hkeep : Js.isLower (Js.lowerChar c) || Js.isDigit (Js.lowerChar c) = true).
  { revert Hc. destruct c as [[] [] [] [] [] [] [] []]; vm_compute; intros H;
      first [ reflexivity | discriminate H ]. }
  rewrite Hkeep. discriminate.
Qed.

(** Handing a name without dot to [buyDomain] selects its label under
    .com; handing it one of the domains the prober answered for, label and
    extension, selects that same domain, provided the label is not empty,
    as it is for any name that begins with a letter. *)
Theorem buyDomain_selects (label : string) :
  (Js.forallChars (fun c => negb (Ascii.eqb c ".")) label = true ->
   buyDomain label = domainLabel label +:+ ".com")
  /\ (domainLabel label <> "" ->
      Forall (fun ext => buyDomain (domainLabel label +:+ ext) = domainLabel label +:+ ext)
             extensions)
  /\ (startsWithLetter label = true -> domainLabel label <> "").
Proof.
  split; [|split; [|apply startsWithLetter_label]].
  - intros Hfree. unfold buyDomain, matchDomain.
    now rewrite (splitLastDot_none _ Hfree).
  - intros Hnonempty. pose proof (domainLabel_chars label) as Hchars.
    assert (Hlen : (0 <? String.length (domainLabel label))%nat = true).
    { apply Nat.ltb_lt. destruct (domainLabel label); [contradiction | cbn; lia]. }
    assert (Hone : forall ext,
               Js.forallChars (fun c => negb (Ascii.eqb c ".")) ext = true ->
               (2 <=? String.length ext)%nat && Js.forallChars Js.isLower ext = true ->
               buyDomain (domainLabel label +:+ String "." ext)
               = domainLabel label +:+ String "." ext).
    { intros ext Hfree Hext. unfold buyDomain, matchDomain.
      rewrite (splitLastDot_last _ _ Hfree).
      rewrite Hlen, (label_no_terminator _ Hchars). cbn [andb].
      rewrite Hext. cbn [default from_option Datatypes.id fst snd].
      now rewrite (domainLabel_of_label _ Hchars). }
    unfold extensions. repeat constructor; apply Hone; reflexivity.
Qed.

Lemma buyDomain_selects_witness :
  buyDomain "CloudFlow" = "cloudflow.com"
  /\ Forall (fun ext => buyDomain ("cloudflow" +:+ ext) = "cloudflow" +:+ ext) extensions.
Proof.
  destruct (buyDomain_selects "CloudFlow") as (Hplain & Hround & _).
  split.
  - apply Hplain. reflexivity.
  - apply Hround. discriminate.
Defined.

(** The single-domain check reports the label under .com as taken when the
    label has at most 6 characters or the domain is a well-known one, and
    as available otherwise; it never reports an unknown status or a
    failure. *)
Theorem checkSpecificDomain_reports (domainName : string) :
  checkSpecificDomain domainName
  = if (labelLength domainName <=? 6)%nat
       || Js.includes definitelyTaken (domainLabel domainName +:+ ".com")
    then NoticeTaken (domainLabel domainName +:+ ".com")
    else NoticeAvailable (domainLabel domainName +:+ ".com").
Proof.
  unfold checkSpecificDomain.
  destruct (probe_by_length domainName) as [Hcom _].
  rewrite probe_lookup in Hcom. change (Js.includes extensions ".com") with true in Hcom.
  cbn iota in Hcom. injection Hcom as ->.
  now destruct (_ || _).
Qed.

(** ** Loading and migrating the persisted state *)

Section Loading.
Import Storage.

Lemma not_nullish v : nullish v = false -> v <> VUndefined /\ v <> VNull.
Proof. destruct v; cbn; intros H; try discriminate H; split; discriminate. Qed.

Lemma get_stored item key :
  String.eqb key "length" = false -> nullish item = false ->
  get item key = Returns (storedProperty item key).
Proof.
  intros Hkey Hdef. destruct (not_nullish _ Hdef). now apply get_ownProps.
Qed.

Lemma get_nullish item key : nullish item = true -> get item key = Throws TypeError.
Proof. now destruct item. Qed.

Lemma migrateOne_defined item :
  nullish item = false ->
  exists item', migrateOne item = Returns item' /\ migratedFrom item item'.
Proof.
  intros Hdef. unfold migrateOne.
  rewrite !(get_stored item) by (reflexivity || assumption).
  cbn [andThen]. unfold migratedFrom.
  destruct (truthy (storedProperty item "domains")) eqn:Hdoms;
    (eexists; split; [reflexivity|]; eexists; split; [reflexivity|]);
    repeat split; intros;
    repeat (rewrite lookup_insert_eq
            || rewrite lookup_insert_ne by (discriminate || congruence));
    try reflexivity; try assumption; try discriminate.
Qed.

Lemma migrateOne_nullish item : nullish item = true -> migrateOne item = Throws TypeError.
Proof. intros H. unfold migrateOne. now rewrite (get_nullish _ _ H). Qed.

Lemma mapOutcome_migrate items :
  if allDefined items
  then exists items', mapOutcome migrateOne items = Returns items'
                      /\ Forall2 migratedFrom items items'
  else mapOutcome migrateOne items = Throws TypeError.
Proof.
  induction items as [|item rest IH]; [cbn; eexists; split; [reflexivity | constructor]|].
  cbn [allDefined List.forallb mapOutcome]. fold (allDefined rest).
  destruct (nullish item) eqn:Hitem; cbn [negb andb].
  - now rewrite (migrateOne_nullish _ Hitem).
  - destruct (migrateOne_defined _ Hitem) as (item' & -> & Hfrom). cbn [andThen].
    destruct (allDefined rest).
    + destruct IH as (rest' & -> & Hrest). cbn [andThen].
      eexists. split; [reflexivity | now constructor].
    + now rewrite IH.
Qed.

(** Migration returns exactly when it is given an array none of whose
    items is [null] or [undefined]; otherwise it throws. *)
Theorem migrateOldData_returns_iff (names : value) :
  if isArrayOfDefined names
  then exists items items',
         names = VArr items /\ migrateOldData names = Returns (VArr items')
         /\ length items' = length items
  else migrateOldData names = Throws TypeError.
Proof.
  unfold migrateOldData, callMap, isArrayOfDefined.
  destruct names; try reflexivity.
  pose proof (mapOutcome_migrate items) as Hmap.
  destruct (allDefined items).
  - destruct Hmap as (items' & -> & Hall). exists items, items'.
    repeat split. symmetry. exact (Forall2_length _ _ _ Hall).
  - now rewrite Hmap.
Qed.

Lemma migrateOldData_related (names migrated : value) :
  migrateOldData names = Returns migrated ->
  exists items items',
    names = VArr items /\ migrated = VArr items' /\ Forall2 migratedFrom items items'.
Proof.
  unfold migrateOldData, callMap. destruct names; try discriminate.
  pose proof (mapOutcome_migrate items) as Hmap.
  destruct (allDefined items).
  - destruct Hmap as (items' & -> & Hall). cbn [andThen]. intros [= <-].
    now exists items, items'.
  - now rewrite Hmap.
Qed.

(** Whatever migration returns is an array with one record per stored
    item, each related to its item as [migratedFrom] says: rating and
    comment present, [domains] truthy, every other stored property kept. *)
Theorem migrateOldData_keeps_stored (names migrated : value) :
  migrateOldData names = Returns migrated ->
  exists items items',
    names = VArr items /\ migrated = VArr items' /\ Forall2 migratedFrom items items'.
Proof. exact (migrateOldData_related names migrated). Qed.

Lemma migrateOldData_keeps_stored_witness :
  exists items',
    migrateOldData (VArr [legacyRecord "Acme"]) = Returns (VArr items')
    /\ Forall2 migratedFrom [legacyRecord "Acme"] items'.
Proof.
  destruct (migrateOldData (VArr [legacyRecord "Acme"])) as [migrated|e] eqn:Hrun;
    [|vm_compute in Hrun; discriminate Hrun].
  destruct (migrateOldData_keeps_stored _ _ Hrun) as (items & items' & Hin & -> & Hall).
  injection Hin as <-. now exists items'.
Defined.

Lemma migratedFrom_shape item item' : migratedFrom item item' -> migratedShape item'.
Proof.
  intros (props & -> & Hrating & Hcomment & Hdoms & _).
  exists props. rewrite Hrating, Hcomment. repeat split; eauto.
Qed.

Lemma migrateOldData_shape names migrated :
  migrateOldData names = Returns migrated ->
  exists items', migrated = VArr items' /\ Forall migratedShape items'.
Proof.
  intros Hrun.
  destruct (migrateOldData_related _ _ Hrun) as (items & items' & _ & -> & Hall).
  exists items'. split; [reflexivity|]. clear Hrun.
  induction Hall as [|item item' rest rest' Hfrom _ IH]; [constructor|].
  constructor; [exact (migratedFrom_shape _ _ Hfrom) | exact IH].
Qed.

(** The loading effect leaves the state alone when the item is absent or
    empty; in every other case both collections of the state it sets are
    arrays of migrated records (the empty arrays when anything went
    wrong). *)
Theorem loadEffect_migrated (saved : stored) (current : RawAppState) :
  match saved with
  | Absent | EmptyText => loadEffect saved current = current
  | _ =>
      exists names archived,
        generatedNames (loadEffect saved current) = VArr names
        /\ archivedNames (loadEffect saved current) = VArr archived
        /\ Forall migratedShape names
        /\ Forall migratedShape archived
  end.
Proof.
  destruct saved as [| | |parsed]; try reflexivity.
  - exists [], []. repeat split; constructor.
  - cbn [loadEffect]. unfold loadEffectBody.
    destruct (get parsed "generatedNames") as [names|]; cbn [andThen];
      [|exists [], []; repeat split; constructor].
    destruct (migrateOldData (orElse names (VArr []))) as [migrated|] eqn:Hnames;
      cbn [andThen]; [|exists [], []; repeat split; constructor].
    destruct (get parsed "favorites") as [favs|]; cbn [andThen];
      [|exists [], []; repeat split; constructor].
    destruct (get parsed "archivedNames") as [stored|]; cbn [andThen];
      [|exists [], []; repeat split; constructor].
    destruct (migrateOldData (orElse stored (VArr []))) as [migrated'|] eqn:Harchive;
      cbn [andThen]; [|exists [], []; repeat split; constructor].
    destruct (get parsed "darkMode") as [dark|]; cbn [andThen];
      [|exists [], []; repeat split; constructor].
    destruct (migrateOldData_shape _ _ Hnames) as (items & -> & Hitems).
    destruct (migrateOldData_shape _ _ Harchive) as (items' & -> & Hitems').
    now exists items, items'.
Qed.

(** Reviving one item: it returns on an item that is neither [null] nor
    [undefined] and whose stored timestamp converts, and throws a TypeError
    on every other item. *)
Lemma reviveTimestamp_returns_iff (item : value) :
  if revivableItem item
  then exists item', reviveTimestamp item = Returns item'
  else reviveTimestamp item = Throws TypeError.
Proof.
  unfold reviveTimestamp, revivableItem.
  destruct (nullish item) eqn:Hitem; cbn [negb andb].
  - now rewrite (get_nullish _ _ Hitem).
  - rewrite (get_stored item) by (reflexivity || assumption).
    cbn [andThen]. unfold constructDate.
    destruct (toPrimitiveThrows (storedProperty item "timestamp"));
      cbn [negb andThen]; [reflexivity | now eexists].
Qed.

Lemma mapOutcome_reviveTimestamp (items : list value) :
  if List.forallb revivableItem items
  then exists items', mapOutcome reviveTimestamp items = Returns items'
  else mapOutcome reviveTimestamp items = Throws TypeError.
Proof.
  induction items as [|item rest IH]; [now eexists|].
  cbn [List.forallb mapOutcome].
  pose proof (reviveTimestamp_returns_iff item) as Hitem.
  destruct (revivableItem item); cbn [andb].
  - destruct Hitem as (item' & ->). cbn [andThen].
    destruct (List.forallb revivableItem rest).
    + destruct IH as (rest' & ->). now eexists.
    + now rewrite IH.
  - now rewrite Hitem.
Qed.

(** The state initializer returns exactly on a parsed value that is not
    [null] and whose [generatedNames] is missing, [null], or an array each
    item of which is neither [null] nor [undefined] and has a stored
    timestamp that converts to a primitive (no object with a [toString]
    property of its own at the top or inside nested arrays); on any other
    parsed value it throws a TypeError. *)
Theorem useStateInitializer_returns_iff (parsed : value) :
  if revivable parsed
  then exists st, useStateInitializer (WellFormed parsed) = Returns st
  else useStateInitializer (WellFormed parsed) = Throws TypeError.
Proof.
  unfold revivable. cbn [useStateInitializer].
  destruct (nullish parsed) eqn:Hparsed; cbn [negb andb].
  { now rewrite (get_nullish _ _ Hparsed). }
  rewrite !(get_stored parsed) by (reflexivity || assumption). cbn [andThen].
  set (names := storedProperty parsed "generatedNames").
  destruct names as [| | | | |items| |] eqn:Hnames; cbn [nullish orb];
    try (eexists; reflexivity); try reflexivity.
  unfold callMap.
  pose proof (mapOutcome_reviveTimestamp items) as Hmap.
  destruct (List.forallb revivableItem items).
  - destruct Hmap as (items' & ->). now eexists.
  - now rewrite Hmap.
Qed.

(** A timestamp that is an object with a [toString] property of its own
    stops the initializer, although no item is [null]. *)
Lemma useStateInitializer_shadowed_toString :
  revivable shadowedTimestamp = false
  /\ useStateInitializer (WellFormed shadowedTimestamp) = Throws TypeError.
Proof. split; reflexivity. Qed.

End Loading.
